(** * car_scraping: the ORM layer and the database bootstrap routine

    A shallow embedding of [orm/database.py], [orm/base.py] and
    [database_config/initialize.py].

    - Python dictionaries are insertion-ordered association lists with
      unique keys ([PyDict]).
    - [psycopg2.sql] composables are a small syntax tree ([sql]) with
      their rendering [as_string].
    - Code that talks to the server runs in a state-and-exception monad
      over a process state; the PostgreSQL driver is an interface
      ([Driver]) whose replies are not constrained: every driver call may
      return or raise.  Every call made to the driver and every line
      printed is recorded, in order, in a trace. *)

From Stdlib Require Import String Ascii List ZArith Bool Lia DecimalString.
Import ListNotations.
Local Open Scope string_scope.
Local Open Scope list_scope.

Set Implicit Arguments.
Set Warnings "-register-all".

(** ** Python strings *)

(** [s.startswith(p)] *)
Definition startswith (s p : string) : bool := String.prefix p s.

(** [sep.join(l)] *)
Definition str_join (sep : string) (l : list string) : string :=
  String.concat sep l.

(** Truth value of a string: only the empty string is false. *)
Definition str_truthy (s : string) : bool :=
  match s with EmptyString => false | String _ _ => true end.

(** [s.replace(a, b)] for a one-character [a]. *)
Fixpoint replace_char (a : ascii) (b : string) (s : string) : string :=
  match s with
  | EmptyString => EmptyString
  | String c s' =>
      if Ascii.eqb c a then (b ++ replace_char a b s')%string
      else String c (replace_char a b s')
  end.

(** ** Python dictionaries *)

Module PyDict.
Section Dict.
Variable V : Type.

Definition dict := list (string * V).

Definition empty : dict := [].

(** [d[k] = v]: an existing key keeps its position and takes the new
    value, a new key goes last. *)
Fixpoint set (d : dict) (k : string) (v : V) : dict :=
  match d with
  | [] => [(k, v)]
  | (k', v') :: d' =>
      if String.eqb k' k then (k', v) :: d'
      else (k', v') :: set d' k v
  end.

(** [d[k]], [None] standing for the [KeyError]. *)
Fixpoint get (d : dict) (k : string) : option V :=
  match d with
  | [] => None
  | (k', v') :: d' => if String.eqb k' k then Some v' else get d' k
  end.

Definition keys (d : dict) : list string := map fst d.
Definition values (d : dict) : list V := map snd d.
Definition items (d : dict) : list (string * V) := d.

(** [dict(pairs)] and [{k: v for k, v in pairs}]. *)
Definition of_pairs (l : list (string * V)) : dict :=
  fold_left (fun d kv => set d (fst kv) (snd kv)) l empty.

(** [{k: v for k, v in pairs if keep(k)}] *)
Definition of_pairs_if (keep : string -> bool) (l : list (string * V)) : dict :=
  fold_left (fun d kv => if keep (fst kv) then set d (fst kv) (snd kv) else d)
            l empty.
End Dict.
Arguments empty {V}.
End PyDict.

(** [zip(a, b)] *)
Definition zip {A B : Type} (a : list A) (b : list B) : list (A * B) := combine a b.

(** ** Exceptions and the process monad *)

Inductive exn : Type :=
| ValueError (msg : string)
| KeyError (key : string)
| TypeError (msg : string)
| AttributeError (msg : string)
| IndexError (msg : string)
| FileNotFoundError (msg : string)
| DriverError (msg : string).      (* psycopg2.Error and its subclasses *)

Inductive result (A : Type) : Type :=
| Ok (a : A)
| Raise (e : exn).
Arguments Ok {A} a.
Arguments Raise {A} e.

(** A computation reads and updates a state and either returns or
    raises; the state reached at a raise is kept. *)
Definition M (S A : Type) : Type := S -> S * result A.

Definition ret {S A : Type} (a : A) : M S A := fun s => (s, Ok a).

Definition raise {S A : Type} (e : exn) : M S A := fun s => (s, Raise e).

Definition bind {S A B : Type} (m : M S A) (k : A -> M S B) : M S B :=
  fun s =>
    match m s with
    | (s', Ok a) => k a s'
    | (s', Raise e) => (s', Raise e)
    end.

(** [try: m  except Exception as e: h e] *)
Definition try_except {S A : Type} (m : M S A) (h : exn -> M S A) : M S A :=
  fun s =>
    match m s with
    | (s', Ok a) => (s', Ok a)
    | (s', Raise e) => h e s'
    end.

Definition lift {S A : Type} (r : result A) : M S A := fun s => (s, r).

Declare Scope py_scope.
Delimit Scope py_scope with py.
Notation "x <- m ;; k" := (bind m (fun x => k))
  (at level 61, m at next level, right associativity) : py_scope.
Notation "m ;;; k" := (bind m (fun _ => k))
  (at level 61, right associativity) : py_scope.

(** [for x in l: f x], collecting the values. *)
Fixpoint for_each {S A B : Type} (f : A -> M S B) (l : list A) : M S (list B) :=
  match l with
  | [] => ret []
  | x :: l' => bind (f x) (fun y => bind (for_each f l') (fun ys => ret (y :: ys)))
  end.

(** ** psycopg2.sql: composable SQL fragments *)

Module sql.

Inductive Composable : Type :=
| SQL (string : String.string)
| Identifier (strings : list String.string)
| Placeholder (name : option String.string)
| Composed (seq : list Composable).

(** The double quote character. *)
Definition dquote : ascii := "034"%char.

(** [ext.quote_ident]: wrap in double quotes, doubling the embedded ones. *)
Definition quote_ident (s : string) : string :=
  (String dquote (replace_char dquote (String dquote (String dquote "")) s)
     ++ String dquote "")%string.

Fixpoint as_string (c : Composable) : string :=
  match c with
  | SQL s => s
  | Identifier strings => str_join "." (map quote_ident strings)
  | Placeholder None => "%s"
  | Placeholder (Some n) => ("%(" ++ n ++ ")s")%string
  | Composed seq => String.concat "" (map as_string seq)
  end.

(** [a + b] *)
Definition add (a b : Composable) : Composable :=
  match a, b with
  | Composed x, Composed y => Composed (x ++ y)
  | Composed x, _ => Composed (x ++ [b])
  | _, Composed y => Composed ([a] ++ y)
  | _, _ => Composed ([a] ++ [b])
  end.

(** [a * n] *)
Definition mul (a : Composable) (n : nat) : Composable := Composed (repeat a n).

(** Iterating over a [Composed] yields its parts. *)
Definition iter (c : Composable) : list Composable :=
  match c with
  | Composed seq => seq
  | _ => []
  end.

(** [SQL(sep).join(seq)] *)
Definition join (sep : string) (seq : list Composable) : Composable :=
  match seq with
  | [] => Composed []
  | first :: rest =>
      Composed (first :: flat_map (fun i => [SQL sep; i]) rest)
  end.

(** [string.Formatter().parse]: the literal pieces of a template, each
    followed by the name of the replacement field that ends it, if any.
    Doubled braces stand for a literal brace. *)
Fixpoint parse (s : string) (lit : string) (fld : option string)
  : result (list (string * option string)) :=
  match s with
  | EmptyString =>
      match fld with
      | None => Ok (if str_truthy lit then [(lit, None)] else [])
      | Some _ => Raise (ValueError "expected '}' before end of string")
      end
  | String c rest =>
      match fld with
      | None =>
          if Ascii.eqb c "{" then
            match rest with
            | String "{" rest' => parse rest' (lit ++ "{")%string None
            | _ => parse rest lit (Some "")
            end
          else if Ascii.eqb c "}" then
            match rest with
            | String "}" rest' => parse rest' (lit ++ "}")%string None
            | _ => Raise (ValueError "Single '}' encountered in format string")
            end
          else parse rest (lit ++ String c "")%string None
      | Some f =>
          if Ascii.eqb c "}" then
            match parse rest "" None with
            | Ok l => Ok ((lit, Some f) :: l)
            | Raise e => Raise e
            end
          else if Ascii.eqb c ":" then
            Raise (ValueError "no format specification supported by SQL")
          else if Ascii.eqb c "!" then
            Raise (ValueError "no format conversion supported by SQL")
          else parse rest lit (Some (f ++ String c "")%string)
      end
  end.

Definition isdigit (s : string) : bool :=
  str_truthy s &&
  forallb (fun c => (48 <=? nat_of_ascii c)%nat && (nat_of_ascii c <=? 57)%nat)
          (list_ascii_of_string s).

(** The parts [format] collects; no positional argument is ever passed
    in this program, so a numbered or empty field finds none. *)
Fixpoint format_parts (pieces : list (string * option string))
         (kwargs : list (string * Composable)) : result (list Composable) :=
  match pieces with
  | [] => Ok []
  | (pre, name) :: pieces' =>
      let head := if str_truthy pre then [SQL pre] else [] in
      match name with
      | None =>
          match format_parts pieces' kwargs with
          | Ok l => Ok (head ++ l)
          | Raise e => Raise e
          end
      | Some n =>
          if isdigit n || negb (str_truthy n) then
            Raise (IndexError "tuple index out of range")
          else
            match PyDict.get kwargs n with
            | None => Raise (KeyError n)
            | Some c =>
                match format_parts pieces' kwargs with
                | Ok l => Ok (head ++ c :: l)
                | Raise e => Raise e
                end
            end
      end
  end.

(** [SQL(template).format] with keyword arguments [kwargs] *)
Definition format (template : string) (kwargs : list (string * Composable))
  : result Composable :=
  match parse template "" None with
  | Raise e => Raise e
  | Ok pieces =>
      match format_parts pieces kwargs with
      | Ok l => Ok (Composed l)
      | Raise e => Raise e
      end
  end.

End sql.

(** ** The interpreter and the driver, as interfaces *)

(** The values bound to statements are arbitrary Python objects.  Of the
    interpreter only [repr] is needed, on such values and on strings (for
    the messages of the exceptions). *)
Class PyValue (value : Type) : Type := {
  repr : value -> string;
  repr_str : string -> string
}.

(** [str(l)] for a list. *)
Definition str_list {A : Type} (repr_elt : A -> string) (l : list A) : string :=
  ("[" ++ str_join ", " (map repr_elt l) ++ "]")%string.

(** [str(e)] for an exception. *)
Definition str_exn {value : Type} `{PyValue value} (e : exn) : string :=
  match e with
  | KeyError key => repr_str key
  | ValueError msg | TypeError msg | AttributeError msg | IndexError msg
  | FileNotFoundError msg | DriverError msg => msg
  end.

(** A connection object, by identity. *)
Definition conn : Type := nat.

(** What a cursor holds after a statement ran: the column descriptions
    (their names; [None] when the statement returns no rows), the rows not
    yet fetched and the row count. *)
Record cursor (value : Type) : Type := {
  description : option (list string);
  rows : list (list value);
  rowcount : Z
}.

(** psycopg2 and the server behind it.  [world] is whatever they remember
    between calls. *)
Class Driver (value world : Type) : Type := {
  (** [psycopg2.connect(dbname=, user=, password=, host=, port=)] *)
  pg_connect : string -> string -> string -> string -> string ->
               world -> world * result conn;
  (** [with c.cursor() as cursor: cursor.execute(query, vars)] *)
  pg_execute : conn -> sql.Composable -> list value ->
               world -> world * result (cursor value);
  (** [c.commit()], [c.rollback()], [c.close()] *)
  pg_commit : conn -> world -> world * result unit;
  pg_rollback : conn -> world -> world * result unit;
  pg_close : conn -> world -> world * result unit
}.

(** What the process did, in order. *)
Inductive event (value : Type) : Type :=
| EvConnect (dbname user password host port : string)
| EvAutocommit (c : conn) (on : bool)
| EvExecute (c : conn) (query : sql.Composable) (vars : list value)
| EvCommit (c : conn)
| EvRollback (c : conn)
| EvClose (c : conn)
| EvPrint (line : string).
Arguments EvConnect {value}.
Arguments EvAutocommit {value}.
Arguments EvCommit {value}.
Arguments EvRollback {value}.
Arguments EvClose {value}.
Arguments EvPrint {value}.

(** ** orm/database.py *)

Module Database.

(** Module [config] is not among the sources: its five settings are
    taken as given. *)
Record config : Type := {
  DB_NAME : string;
  DB_USER : string;
  DB_PASSWORD : string;
  DB_HOST : string;
  DB_PORT : string
}.

(** The attributes of a [Database] object.  [__new__] writes
    [__initialized] inside the class body, so the attribute it creates is
    [_Database__initialized]; [__init__] writes [_connection] and
    [_initialized]. *)
Record object : Type := {
  _Database__initialized : bool;
  _connection : option conn;
  _initialized : option bool
}.

Section WithDriver.
Context {value world : Type} `{PyValue value} `{Driver value world}.

(** The process: the driver's world, the trace, and the class
    attribute [Database._instance].  There is at most one [Database]
    object, so every reference to it is a reference to this slot. *)
Record process : Type := {
  server : world;
  trace : list (event value);
  _instance : option object
}.

Definition P (A : Type) : Type := M process A.

Definition emit (e : event value) : P unit :=
  fun p => ({| server := server p; trace := trace p ++ [e];
               _instance := _instance p |}, Ok tt).

Definition call {A : Type} (f : world -> world * result A) : P A :=
  fun p => let (w, r) := f (server p) in
           ({| server := w; trace := trace p; _instance := _instance p |}, r).

Definition print (line : string) : P unit := emit (EvPrint line).

(** Reading and writing the attributes of [self].  A method runs on an
    instance, so the slot is filled whenever one is called; the other
    branch only makes the functions total. *)
Definition self : P object :=
  fun p => match _instance p with
           | Some o => (p, Ok o)
           | None => (p, Raise (AttributeError "'NoneType' object has no attribute '_connection'"))
           end.

Definition set_self (f : object -> object) : P unit :=
  fun p => match _instance p with
           | Some o => ({| server := server p; trace := trace p;
                           _instance := Some (f o) |}, Ok tt)
           | None => (p, Raise (AttributeError "'NoneType' object has no attribute '_connection'"))
           end.

Local Open Scope py_scope.

Definition __new__ : P unit :=
  fun p => match _instance p with
           | None =>
               ({| server := server p; trace := trace p;
                   _instance := Some {| _Database__initialized := false;
                                        _connection := None;
                                        _initialized := None |} |}, Ok tt)
           | Some _ => (p, Ok tt)
           end.

Definition __init__ (cfg : config) : P unit :=
  emit (EvConnect (DB_NAME cfg) (DB_USER cfg) (DB_PASSWORD cfg)
                  (DB_HOST cfg) (DB_PORT cfg)) ;;;
  c <- call (pg_connect (DB_NAME cfg) (DB_USER cfg) (DB_PASSWORD cfg)
                        (DB_HOST cfg) (DB_PORT cfg)) ;;
  set_self (fun o => {| _Database__initialized := _Database__initialized o;
                        _connection := Some c;
                        _initialized := _initialized o |}) ;;;
  set_self (fun o => {| _Database__initialized := _Database__initialized o;
                        _connection := _connection o;
                        _initialized := Some true |}).

(** [Database()]: the object [__new__] returns is an instance of the
    class, so [__init__] runs on it, every time. *)
Definition Database (cfg : config) : P unit :=
  __new__ ;;; __init__ cfg.

(** The connection the [Database] object holds, if it holds one. *)
Definition held (p : process) : option conn :=
  match _instance p with
  | Some o => _connection o
  | None => None
  end.

(** The [connection] property. *)
Definition connection : P conn :=
  o <- self ;;
  match _connection o with
  | Some c => ret c
  | None => raise (AttributeError "'Database' object has no attribute '_connection'")
  end.

Definition commit : P unit :=
  c <- connection ;; emit (EvCommit c) ;;; call (pg_commit c).

Definition rollback : P unit :=
  c <- connection ;; emit (EvRollback c) ;;; call (pg_rollback c).

(** [with self.connection.cursor() as cursor: cursor.execute(query, vars)] *)
Definition cursor_execute (query : sql.Composable) (vars : list value)
  : P (cursor value) :=
  c <- connection ;; emit (EvExecute c query vars) ;;; call (pg_execute c query vars).

(** [cursor.fetchone()] and [cursor.fetchall()]: psycopg2 refuses to fetch
    from a cursor whose statement returned no result set. *)
Definition fetchone (cur : cursor value) : P (option (list value)) :=
  match description cur with
  | Some _ => ret (hd_error (rows cur))
  | None => raise (DriverError "no results to fetch")
  end.

Definition fetchall (cur : cursor value) : P (list (list value)) :=
  match description cur with
  | Some _ => ret (rows cur)
  | None => raise (DriverError "no results to fetch")
  end.

(** [[desc[0] for desc in cursor.description]] *)
Definition description_names (cur : cursor value) : P (list string) :=
  match description cur with
  | Some names => ret names
  | None => raise (TypeError "'NoneType' object is not iterable")
  end.

(** The statement [insert_record] builds, and the values it binds. *)
Definition insert_statement (table : string) (record : PyDict.dict value)
  : result sql.Composable :=
  let n_columns := length record in
  sql.format "INSERT INTO {table} ({fields}) VALUES ({values}) RETURNING *;"
    [("table", sql.Identifier [table]);
     ("fields", sql.join "," (map (fun col => sql.Identifier [col])
                                  (PyDict.keys record)));
     ("values", sql.join "," (sql.iter (sql.mul (sql.Placeholder None) n_columns)))].

(** The record [insert_record] keeps of its arguments. *)
Definition insert_fields (columns : list string) (values : list value)
  : PyDict.dict value :=
  PyDict.of_pairs_if (fun col => negb (startswith col "_")) (zip columns values).

(** The [with] block of [insert_record]: run the statement and read
    the returned row back as a dictionary. *)
Definition insert_returning (sql_statement : sql.Composable) (vars : list value)
  : P (PyDict.dict value) :=
  cursor <- cursor_execute sql_statement vars ;;
  record_values <- fetchone cursor ;;
  record_columns <- description_names cursor ;;
  match record_values with
  | Some vs => ret (PyDict.of_pairs (zip record_columns vs))
  | None => raise (TypeError "'NoneType' object is not iterable")
  end.

(** The [except] clause of [insert_record], entered with the value
    [inserted_record] has when the exception is raised. *)
Definition insert_failed (inserted_record : PyDict.dict value) (e : exn)
  : P (PyDict.dict value) :=
  rollback ;;;
  print ("[ERROR] insert_record failed: " ++ str_exn e)%string ;;;
  ret inserted_record.

Definition insert_record (table : string) (columns : list string)
           (values : list value) (autocommit : bool) : P (PyDict.dict value) :=
  let record := insert_fields columns values in
  sql_statement <- lift (insert_statement table record) ;;
  fun p =>
    (* inserted_record = {} *)
    match insert_returning sql_statement (PyDict.values record) p with
    | (p1, Raise e) => insert_failed PyDict.empty e p1
    | (p1, Ok inserted_record) =>
        if autocommit then
          match commit p1 with
          | (p2, Raise e) => insert_failed inserted_record e p2
          | (p2, Ok _) => (p2, Ok inserted_record)
          end
        else (p1, Ok inserted_record)
    end.

(** The [columns] argument of [select_records]: a list of names, or
    anything else, which [sql.SQL] accepts only when it is a string. *)
Inductive columns_arg : Type :=
| ColumnList (names : list string)
| ColumnStr (s : string).

Definition select_statement (table : string) (columns : columns_arg)
           (where_clause : option string) : result sql.Composable :=
  let columns_sql :=
    match columns with
    | ColumnList names => sql.join ", " (map (fun col => sql.Identifier [col]) names)
    | ColumnStr s => sql.SQL s
    end in
  match sql.format "SELECT {fields} FROM {table}"
                   [("fields", columns_sql); ("table", sql.Identifier [table])] with
  | Raise e => Raise e
  | Ok query =>
      match where_clause with
      | Some w =>
          if str_truthy w
          then Ok (sql.add query (sql.add (sql.SQL " WHERE ") (sql.SQL w)))
          else Ok query
      | None => Ok query
      end
  end.

Definition select_records (table : string) (columns : columns_arg)
           (where_clause : option string) (where_values : option (list value))
  : P (list (PyDict.dict value)) :=
  query <- lift (select_statement table columns where_clause) ;;
  cursor <- cursor_execute query
              match where_values with
              | Some (v :: vs) => v :: vs
              | _ => []
              end ;;
  records_columns <- description_names cursor ;;
  records_values <- fetchall cursor ;;
  ret (map (fun values => PyDict.of_pairs (zip records_columns values)) records_values).

Definition update_statement (table : string) (columns : list string)
           (where_clause : string) : result sql.Composable :=
  let set_clause :=
    sql.join ", " (map (fun col => sql.Composed [sql.Identifier [col]; sql.SQL " = ";
                                                  sql.Placeholder None]) columns) in
  sql.format "UPDATE {table} SET {set_clause} WHERE {where}"
    [("table", sql.Identifier [table]);
     ("set_clause", set_clause);
     ("where", sql.SQL where_clause)].

Definition update_record (table : string) (columns : list string)
           (values : list value) (where_clause : string)
           (where_values : list value) (autocommit : bool) : P Z :=
  if negb (length columns =? length values)%nat then
    raise (ValueError "The number of columns must match the number of values.")
  else
    query <- lift (update_statement table columns where_clause) ;;
    cursor <- cursor_execute query (values ++ where_values) ;;
    let affected_rows := rowcount cursor in
    (if autocommit then commit else ret tt) ;;;
    ret affected_rows.

End WithDriver.
Arguments process : clear implicits.
End Database.

(** ** orm/base.py *)

Module BaseModel.
Import Database.

Section WithDriver.
Context {value world : Type} `{PyValue value} `{Driver value world}.

(** A model instance is its [__dict__]. *)
Definition instance : Type := PyDict.dict value.

(** A model class: the three class attributes and the constructor,
    which receives the keyword arguments and leaves the attributes of
    the new instance, or raises. *)
Record class : Type := {
  table_name : string;
  table_columns : list string;
  table_id : list string;
  __init__ : PyDict.dict value -> result instance
}.

(** [BaseModel] itself: empty metadata, and a constructor that ignores
    its keyword arguments.  Its signature is [__init__(self, **kwargs)]:
    a keyword named [self] collides with the first parameter, and the
    call raises [TypeError]. *)
Definition BaseModel : class := {|
  table_name := "";
  table_columns := [];
  table_id := [];
  __init__ := fun kwargs =>
    match PyDict.get kwargs "self" with
    | Some _ =>
        Raise (TypeError
                 "BaseModel.__init__() got multiple values for argument 'self'")
    | None => Ok PyDict.empty
    end
|}.

(** A subclass that sets the class attributes and inherits [__init__]. *)
Definition subclass (name : string) (columns id : list string) : class := {|
  table_name := name;
  table_columns := columns;
  table_id := id;
  __init__ := __init__ BaseModel
|}.

Definition dict_record (self : instance) : PyDict.dict value :=
  PyDict.of_pairs_if (fun col => negb (startswith col "_")) (PyDict.items self).

Local Open Scope py_scope.

Definition dump (cls : class) (self : instance) : P (list value) :=
  record <- insert_record (table_name cls)
                          (PyDict.keys (dict_record self))
                          (PyDict.values (dict_record self))
                          false ;;
  for_each (fun col_id =>
              match PyDict.get record col_id with
              | Some v => ret v
              | None => raise (KeyError col_id)
              end)
           (table_id cls).

(** The [where_clause] of [from_database_id]. *)
Definition where_clause (cls : class) : string :=
  str_join " AND " (map (fun col => (col ++ " = %s")%string) (table_id cls)).

Definition from_database_id (cls : class) (record_id : list value) : P instance :=
  if negb (length record_id =? length (table_id cls))%nat then
    raise (ValueError ("Record ID (" ++ str_list repr record_id
                       ++ ") does not match table ID ("
                       ++ str_list repr_str (table_id cls) ++ ").")%string)
  else
    record <- try_except
                (select_records (table_name cls) (ColumnStr "*")
                                (Some (where_clause cls)) (Some record_id))
                (fun e => raise (ValueError
                   ("Failed to fetch record from database. Error: "
                    ++ str_exn e)%string)) ;;
    match record with
    | first :: _ => lift (__init__ cls first)
    | [] => raise (ValueError ("Record ID: " ++ str_list repr record_id
                               ++ " not found.")%string)
    end.

(** [getattr(o, name, default)], an object being the mapping from the
    names of its attributes to their values. *)
Definition getattr (o : PyDict.dict value) (name : string) (default : value) : value :=
  match PyDict.get o name with
  | Some v => v
  | None => default
  end.

(** [from_parser]; [none] is the value [None]. *)
Definition from_parser (none : value) (cls : class) (parser : PyDict.dict value)
  : M (process value world) instance :=
  let record :=
    PyDict.of_pairs (map (fun col => (col, getattr parser col none))
                         (table_columns cls)) in
  lift (__init__ cls record).

End WithDriver.
Arguments class : clear implicits.
Arguments instance : clear implicits.
End BaseModel.

(** ** database_config/initialize.py *)

(** The files the bootstrap reads. *)
Class FileSystem (world : Type) : Type := {
  (** [os.path.exists(path)] *)
  path_exists : string -> world -> bool;
  (** [open(path).read()] *)
  read_file : string -> world -> result string
}.

Module initialize.

Section WithDriver.
(** The only value this script binds is the database name, a string.
    A query given as a plain string reaches the driver as the same
    text [sql.SQL] of it renders to. *)
Context {world : Type} `{Driver string world} `{FileSystem world}.

Record process : Type := {
  server : world;
  trace : list (event string)
}.

Definition P (A : Type) : Type := M process A.

Definition emit (e : event string) : P unit :=
  fun p => ({| server := server p; trace := trace p ++ [e] |}, Ok tt).

Definition call {A : Type} (f : world -> world * result A) : P A :=
  fun p => let (w, r) := f (server p) in ({| server := w; trace := trace p |}, r).

Definition print (line : string) : P unit := emit (EvPrint line).

Local Open Scope py_scope.

Definition connect (dbname user password host port : string) : P conn :=
  emit (EvConnect dbname user password host port) ;;;
  call (pg_connect dbname user password host port).

Definition set_autocommit (c : conn) (on : bool) : P unit :=
  emit (EvAutocommit c on).

Definition close (c : conn) : P unit :=
  emit (EvClose c) ;;; call (pg_close c).

(** [with conn.cursor() as cursor: cursor.execute(query, vars)] *)
Definition cursor_execute (c : conn) (query : string) (vars : list string)
  : P (cursor string) :=
  emit (EvExecute c (sql.SQL query) vars) ;;;
  call (pg_execute c (sql.SQL query) vars).

Definition database_exists (c : conn) (dbname : string) : P bool :=
  cursor <- cursor_execute c "SELECT 1 FROM pg_database WHERE datname = %s;" [dbname] ;;
  let already_exists := (0 <? length (rows cursor))%nat in
  ret already_exists.

Definition create_database (c : conn) (dbname : string) (verbose : bool) : P unit :=
  cursor_execute c ("CREATE DATABASE " ++ dbname)%string [] ;;;
  if verbose then print "Database created" else ret tt.

Definition apply_schema (c : conn) (schema_path : string) : P unit :=
  exists_ <- (fun p => (p, Ok (path_exists schema_path (server p)))) ;;
  if negb exists_ then
    raise (FileNotFoundError ("Schema " ++ schema_path ++ " does not exist")%string)
  else
    SQL_SCHEMA <- (fun p => (p, read_file schema_path (server p))) ;;
    cursor_execute c SQL_SCHEMA [] ;;;
    print "Schema applied".

Definition initialize_database (dbname user password host port : string) : P unit :=
  let _apply_schema := false in
  postgres_conn <- connect "postgres" user password host port ;;
  set_autocommit postgres_conn true ;;;
  _apply_schema <-
    (exists_ <- database_exists postgres_conn dbname ;;
     if negb exists_ then
       create_database postgres_conn dbname true ;;;
       ret true
     else ret _apply_schema) ;;
  close postgres_conn ;;;
  if _apply_schema then
    db_conn <- connect dbname user password host port ;;
    set_autocommit db_conn true ;;;
    apply_schema db_conn "database_config/schema.sql"
  else ret tt.

End WithDriver.
Arguments process : clear implicits.
End initialize.

(** ** Test doubles for the driver

    Two stand-ins for psycopg2, used to run the code on concrete inputs. *)

Module Scripted.

(** A few Python values. *)
Inductive pyval : Type :=
| PNone
| PInt (n : Z)
| PStr (s : string).

(** [repr], as Python prints these values when the string has no quote,
    backslash or control character. *)
Definition repr_pyval (v : pyval) : string :=
  match v with
  | PNone => "None"
  | PInt n => NilZero.string_of_int (Z.to_int n)
  | PStr s => ("'" ++ s ++ "'")%string
  end.

#[global] Instance pyval_PyValue : PyValue pyval := {|
  repr := repr_pyval;
  repr_str := fun s => ("'" ++ s ++ "'")%string
|}.

(** A driver that follows a script: connections are numbered in the
    order they are opened, each statement takes the next scripted reply,
    and commit and rollback answer as the script says. *)
Record script : Type := {
  opened : nat;
  replies : list (result (cursor pyval));
  on_commit : result unit;
  on_rollback : result unit
}.

#[global] Instance script_Driver : Driver pyval script := {|
  pg_connect := fun _ _ _ _ _ w =>
    ({| opened := S (opened w); replies := replies w;
        on_commit := on_commit w; on_rollback := on_rollback w |}, Ok (opened w));
  pg_execute := fun _ _ _ w =>
    match replies w with
    | r :: rs => ({| opened := opened w; replies := rs;
                     on_commit := on_commit w; on_rollback := on_rollback w |}, r)
    | [] => (w, Raise (DriverError "no reply"))
    end;
  pg_commit := fun _ w => (w, on_commit w);
  pg_rollback := fun _ w => (w, on_rollback w);
  pg_close := fun _ w => (w, Ok tt)
|}.

Definition cfg : Database.config := {|
  Database.DB_NAME := "cars"; Database.DB_USER := "scraper";
  Database.DB_PASSWORD := "secret"; Database.DB_HOST := "localhost";
  Database.DB_PORT := "5432"
|}.

(** A process that has not constructed the [Database] yet, and one whose
    [Database] holds connection [0]. *)
Definition fresh (w : script) : Database.process pyval script := {|
  Database.server := w; Database.trace := []; Database._instance := None
|}.

Definition started (w : script) : Database.process pyval script := {|
  Database.server := w; Database.trace := [];
  Database._instance := Some {| Database._Database__initialized := false;
                                Database._connection := Some 0;
                                Database._initialized := Some true |}
|}.

(** A table with a server-assigned key, a model class for it that
    inherits the constructor of [BaseModel], one whose constructor
    stores its keyword arguments, an instance, and what the server
    answers when the row is inserted or selected. *)
Definition users : BaseModel.class pyval :=
  BaseModel.subclass "users" ["id"; "name"] ["id"].

Definition users_storing : BaseModel.class pyval := {|
  BaseModel.table_name := "users";
  BaseModel.table_columns := ["id"; "name"];
  BaseModel.table_id := ["id"];
  BaseModel.__init__ := fun kwargs => Ok kwargs
|}.

Definition alice : BaseModel.instance pyval := [("name", PStr "Alice")].

Definition alice_row : result (cursor pyval) :=
  Ok {| description := Some ["id"; "name"];
        rows := [[PInt 1; PStr "Alice"]];
        rowcount := 1 |}.

Definition no_row : result (cursor pyval) :=
  Ok {| description := Some ["id"; "name"]; rows := []; rowcount := 0 |}.

Definition answering (replies : list (result (cursor pyval))) : script := {|
  opened := 1; replies := replies; on_commit := Ok tt; on_rollback := Ok tt
|}.

(** A server that went away: the statement fails and so does the rollback. *)
Definition lost_connection : script := {|
  opened := 1;
  replies := [Raise (DriverError "server closed the connection unexpectedly")];
  on_commit := Ok tt;
  on_rollback := Raise (DriverError "connection already closed")
|}.

(** A server that runs the INSERT and then fails to commit. *)
Definition failing_commit : script := {|
  opened := 1;
  replies := [alice_row];
  on_commit := Raise (DriverError "could not serialize access");
  on_rollback := Ok tt
|}.

(** A model class without key columns. *)
Definition log : BaseModel.class pyval := BaseModel.subclass "log" ["msg"] [].

(** The statements the runs below send. *)
Definition insert_name : sql.Composable :=
  sql.Composed
    [sql.SQL "INSERT INTO "; sql.Identifier ["users"]; sql.SQL " (";
     sql.Composed [sql.Identifier ["name"]];
     sql.SQL ") VALUES (";
     sql.Composed [sql.Placeholder None];
     sql.SQL ") RETURNING *;"].

Definition select_by_id : sql.Composable :=
  sql.Composed
    [sql.SQL "SELECT "; sql.SQL "*"; sql.SQL " FROM "; sql.Identifier ["users"];
     sql.SQL " WHERE "; sql.SQL "id = %s"].

End Scripted.

Module ToyServer.

(** A server that knows which databases exist, and a file system. *)
Record state : Type := {
  catalog : list string;
  opened : nat;
  files : list (string * string)
}.

Definition has_database (w : state) (name : string) : bool :=
  existsb (String.eqb name) (catalog w).

Definition exists_query : string := "SELECT 1 FROM pg_database WHERE datname = %s;".
Definition create_prefix : string := "CREATE DATABASE ".

Definition no_rows : cursor string :=
  {| description := None; rows := []; rowcount := (-1)%Z |}.

Definition run (query : string) (vars : list string) (w : state)
  : state * result (cursor string) :=
  if String.eqb query exists_query then
    (w, Ok {| description := Some ["?column?"];
              rows := if has_database w (hd "" vars) then [["1"]] else [];
              rowcount := if has_database w (hd "" vars) then 1%Z else 0%Z |})
  else if String.prefix create_prefix query then
    let name := String.substring (String.length create_prefix)
                  (String.length query - String.length create_prefix) query in
    if has_database w name
    then (w, Raise (DriverError ("database " ++ name ++ " already exists")%string))
    else ({| catalog := catalog w ++ [name]; opened := opened w; files := files w |},
          Ok no_rows)
  else (w, Ok no_rows).

#[global] Instance state_Driver : Driver string state := {|
  pg_connect := fun dbname _ _ _ _ w =>
    if has_database w dbname
    then ({| catalog := catalog w; opened := S (opened w); files := files w |},
          Ok (opened w))
    else (w, Raise (DriverError ("database " ++ dbname ++ " does not exist")%string));
  pg_execute := fun _ query vars w => run (sql.as_string query) vars w;
  pg_commit := fun _ w => (w, Ok tt);
  pg_rollback := fun _ w => (w, Ok tt);
  pg_close := fun _ w => (w, Ok tt)
|}.

#[global] Instance state_FileSystem : FileSystem state := {|
  path_exists := fun path w =>
    match PyDict.get (files w) path with Some _ => true | None => false end;
  read_file := fun path w =>
    match PyDict.get (files w) path with
    | Some text => Ok text
    | None => Raise (FileNotFoundError path)
    end
|}.

(** A server with only the maintenance database, and the schema file in place. *)
Definition empty_server : state := {|
  catalog := ["postgres"];
  opened := 0;
  files := [("database_config/schema.sql", "CREATE TABLE cars (id serial PRIMARY KEY);")]
|}.

End ToyServer.

Module Refusing.

(** The toy server for a user who may not create databases. *)
Record state : Type := { inner : ToyServer.state }.

Definition lift_inner {A : Type} (r : ToyServer.state * result A) : state * result A :=
  ({| inner := fst r |}, snd r).

#[global] Instance state_Driver : Driver string state := {|
  pg_connect := fun dbname user password host port w =>
    lift_inner (pg_connect dbname user password host port (inner w));
  pg_execute := fun c query vars w =>
    if String.prefix ToyServer.create_prefix (sql.as_string query)
    then (w, Raise (DriverError "permission denied to create database"))
    else lift_inner (pg_execute c query vars (inner w));
  pg_commit := fun c w => lift_inner (pg_commit c (inner w));
  pg_rollback := fun c w => lift_inner (pg_rollback c (inner w));
  pg_close := fun c w => lift_inner (pg_close c (inner w))
|}.

#[global] Instance state_FileSystem : FileSystem state := {|
  path_exists := fun path w => path_exists path (inner w);
  read_file := fun path w => read_file path (inner w)
|}.

End Refusing.

Module MoreFixtures.
Import Scripted.

(** The script [lost_connection] once its statement has been answered. *)
Definition lost_connection_after : script := {|
  opened := 1;
  replies := [];
  on_commit := Ok tt;
  on_rollback := Raise (DriverError "connection already closed")
|}.

(** A table whose INSERT returns only the name, not the key. *)
Definition name_only_row : result (cursor pyval) :=
  Ok {| description := Some ["name"]; rows := [[PStr "Alice"]]; rowcount := 1 |}.

(** Two rows of [users]. *)
Definition two_rows : result (cursor pyval) :=
  Ok {| description := Some ["id"; "name"];
        rows := [[PInt 1; PStr "Alice"]; [PInt 2; PStr "Bob"]];
        rowcount := 2 |}.

(** What an UPDATE of three rows answers. *)
Definition three_updated : result (cursor pyval) :=
  Ok {| description := None; rows := []; rowcount := 3 |}.

Definition update_name : sql.Composable :=
  sql.Composed
    [sql.SQL "UPDATE "; sql.Identifier ["users"]; sql.SQL " SET ";
     sql.Composed [sql.Composed [sql.Identifier ["name"]; sql.SQL " = ";
                                 sql.Placeholder None]];
     sql.SQL " WHERE "; sql.SQL "id = %s"].

Definition select_all : sql.Composable :=
  sql.Composed
    [sql.SQL "SELECT "; sql.SQL "*"; sql.SQL " FROM "; sql.Identifier ["users"]].

(** An instance that already carries the key the server will assign. *)
Definition alice_keyed : BaseModel.instance pyval :=
  [("id", PInt 1); ("name", PStr "Alice")].


(** A row with a column named [self]. *)
Definition self_row : result (cursor pyval) :=
  Ok {| description := Some ["id"; "self"];
        rows := [[PInt 1; PStr "me"]];
        rowcount := 1 |}.

(** An instance with a private attribute. *)
Definition alice_cached : BaseModel.instance pyval :=
  [("name", PStr "Alice"); ("_cache", PNone); ("age", PInt 30)].

(** A toy server without a schema file, and a process that has not
    constructed its [Database] on a server without the database. *)
Definition no_schema_server : ToyServer.state := {|
  ToyServer.catalog := ["postgres"];
  ToyServer.opened := 0;
  ToyServer.files := []
|}.

Definition unconnected : Database.process string ToyServer.state := {|
  Database.server := ToyServer.empty_server;
  Database.trace := [];
  Database._instance := None
|}.

End MoreFixtures.

(** * Properties *)

(** ** Dictionaries *)

Section DictFacts.
Variable V : Type.
Implicit Types (d : PyDict.dict V) (l : list (string * V)).

Lemma set_In d k v k' v' :
  In (k', v') (PyDict.set d k v) -> In (k', v') d \/ (k' = k /\ v' = v).
Proof.
  induction d as [|[k0 v0] d IH]; simpl.
  - intros [E|[]]. inversion E. now right.
  - destruct (String.eqb_spec k0 k) as [->|Hne]; simpl.
    + intros [E|Hin]; [inversion E; now right | left; now right].
    + intros [E|Hin]; [left; now left|].
      destruct (IH Hin) as [?|?]; [left; now right | now right].
Qed.

Lemma set_has_key d k v : In k (PyDict.keys (PyDict.set d k v)).
Proof.
  induction d as [|[k0 v0] d IH]; simpl.
  - now left.
  - destruct (String.eqb_spec k0 k) as [->|Hne]; simpl; [now left | now right].
Qed.

Lemma set_keeps_keys d k v k' :
  In k' (PyDict.keys d) -> In k' (PyDict.keys (PyDict.set d k v)).
Proof.
  induction d as [|[k0 v0] d IH]; simpl; [intros []|].
  destruct (String.eqb_spec k0 k) as [->|Hne]; simpl; intros [E|Hin]; auto.
Qed.

Variable keep : string -> bool.

Let step := fun d (kv : string * V) =>
  if keep (fst kv) then PyDict.set d (fst kv) (snd kv) else d.

Lemma fold_if_In l : forall d k v,
  In (k, v) (fold_left step l d) -> In (k, v) d \/ (In (k, v) l /\ keep k = true).
Proof.
  induction l as [|[k0 v0] l IH]; simpl; intros d k v Hin; [now left|].
  destruct (IH _ _ _ Hin) as [Hd|[Hl Hk]]; [|right; auto].
  unfold step in Hd; simpl in Hd.
  destruct (keep k0) eqn:Hk0; [|now left].
  destruct (set_In _ _ _ _ _ Hd) as [?|[-> ->]]; [now left|right; auto].
Qed.

Lemma fold_if_keeps_keys l : forall d k,
  In k (PyDict.keys d) -> In k (PyDict.keys (fold_left step l d)).
Proof.
  induction l as [|[k0 v0] l IH]; simpl; intros d k Hin; [assumption|].
  apply IH. unfold step; simpl.
  destruct (keep k0); [now apply set_keeps_keys | assumption].
Qed.

Lemma fold_if_has_key l : forall d k v,
  In (k, v) l -> keep k = true -> In k (PyDict.keys (fold_left step l d)).
Proof.
  induction l as [|[k0 v0] l IH]; simpl; intros d k v Hin Hk; [contradiction|].
  destruct Hin as [E|Hin]; [|eapply IH; eauto].
  inversion E; subst. apply fold_if_keeps_keys.
  unfold step; simpl. rewrite Hk. apply set_has_key.
Qed.

(** The entries of a filtered comprehension are entries of its source
    whose key passes the filter. *)
Lemma of_pairs_if_In l k v :
  In (k, v) (PyDict.of_pairs_if keep l) -> In (k, v) l /\ keep k = true.
Proof.
  intros Hin. apply fold_if_In in Hin. destruct Hin as [[]|?]. assumption.
Qed.

(** ... and every key of the source that passes the filter is kept. *)
Lemma of_pairs_if_has_key l k v :
  In (k, v) l -> keep k = true -> In k (PyDict.keys (PyDict.of_pairs_if keep l)).
Proof. apply fold_if_has_key. Qed.

Lemma keys_In d k : In k (PyDict.keys d) -> exists v, In (k, v) d.
Proof.
  unfold PyDict.keys. intros Hin. apply in_map_iff in Hin.
  destruct Hin as [[k0 v0] [E Hin]]. simpl in E; subst. now exists v0.
Qed.

Lemma keys_values_zip d : zip (PyDict.keys d) (PyDict.values d) = d.
Proof.
  induction d as [|[k v] d IH]; simpl; [reflexivity|].
  unfold zip in *. simpl. now rewrite IH.
Qed.

End DictFacts.

(** ** Statements *)

Section SqlFacts.
Import sql.

Lemma append_empty_r (s : string) : (s ++ "")%string = s.
Proof. induction s; simpl; congruence. Qed.

Lemma concat_nosep_cons (x : string) (l : list string) :
  String.concat "" (x :: l) = (x ++ String.concat "" l)%string.
Proof. destruct l; simpl; [now rewrite append_empty_r | reflexivity]. Qed.

Lemma render_interleaved sep : forall (rest : list Composable) (a : string),
  String.concat "" (a :: map as_string (flat_map (fun i => [SQL sep; i]) rest))
  = String.concat sep (a :: map as_string rest).
Proof.
  induction rest as [|b rest IH]; intros a; [reflexivity|].
  cbn [flat_map map app as_string].
  rewrite concat_nosep_cons, concat_nosep_cons, IH. reflexivity.
Qed.

(** A joined sequence renders as the renderings joined. *)
Lemma render_join sep (parts : list Composable) :
  as_string (join sep parts) = str_join sep (map as_string parts).
Proof.
  destruct parts as [|a rest]; [reflexivity|].
  unfold join, str_join. cbn [as_string map]. apply render_interleaved.
Qed.

Lemma render_identifiers (names : list string) :
  map as_string (map (fun col => Identifier [col]) names) = map quote_ident names.
Proof. rewrite map_map. apply map_ext. reflexivity. Qed.

Lemma render_placeholders (n : nat) :
  map as_string (repeat (Placeholder None) n) = repeat "%s" n.
Proof. induction n; simpl; congruence. Qed.

Lemma insert_statement_shape {value : Type} (table : string)
      (record : PyDict.dict value) :
  Database.insert_statement table record =
  Ok (Composed [SQL "INSERT INTO "; Identifier [table]; SQL " (";
                join "," (map (fun col => Identifier [col]) (PyDict.keys record));
                SQL ") VALUES (";
                join "," (repeat (Placeholder None) (length record));
                SQL ") RETURNING *;"]).
Proof. reflexivity. Qed.

Lemma select_statement_shape (table : string) (columns : Database.columns_arg)
      (where_clause : option string) :
  Database.select_statement table columns where_clause =
  Ok (Composed
        ([SQL "SELECT ";
          match columns with
          | Database.ColumnList names =>
              join ", " (map (fun col => Identifier [col]) names)
          | Database.ColumnStr s => SQL s
          end;
          SQL " FROM "; Identifier [table]]
         ++ match where_clause with
            | Some w => if str_truthy w then [SQL " WHERE "; SQL w] else []
            | None => []
            end)).
Proof.
  unfold Database.select_statement. cbn.
  destruct where_clause as [w|]; [destruct (str_truthy w)|]; reflexivity.
Qed.

Lemma update_statement_shape (table : string) (columns : list string)
      (where_clause : string) :
  Database.update_statement table columns where_clause =
  Ok (Composed [SQL "UPDATE "; Identifier [table]; SQL " SET ";
                join ", " (map (fun col => Composed [Identifier [col]; SQL " = ";
                                                      Placeholder None]) columns);
                SQL " WHERE "; SQL where_clause]).
Proof. reflexivity. Qed.

End SqlFacts.

(** ** The connection manager and the statement builder *)

Section DatabaseFacts.
Context {value world : Type} `{PV : PyValue value} `{DR : Driver value world}.
Import Database.

Abbreviation process := (Database.process value world).
Implicit Types (p : process) (c : conn).

Ltac run := unfold bind, ret, raise, lift, emit, call, print; simpl.

Lemma connection_held p c : held p = Some c -> connection p = (p, Ok c).
Proof.
  unfold held, connection, self. run.
  destruct (_instance p) as [o|]; [|discriminate].
  intros ->. reflexivity.
Qed.

Lemma cursor_execute_held p c query vars :
  held p = Some c ->
  cursor_execute query vars p =
  let (w, r) := pg_execute c query vars (server p) in
  ({| server := w; trace := trace p ++ [EvExecute c query vars];
      _instance := _instance p |}, r).
Proof.
  intros Hc. unfold cursor_execute. unfold bind at 1.
  rewrite connection_held with (c := c) by assumption. run.
  destruct (pg_execute c query vars (server p)) as [w [cur|e]]; reflexivity.
Qed.

Lemma commit_held p c :
  held p = Some c ->
  commit p =
  let (w, r) := pg_commit c (server p) in
  ({| server := w; trace := trace p ++ [EvCommit c]; _instance := _instance p |}, r).
Proof.
  intros Hc. unfold commit. unfold bind at 1.
  rewrite connection_held with (c := c) by assumption. run.
  destruct (pg_commit c (server p)) as [w [[]|e]]; reflexivity.
Qed.

Lemma rollback_held p c :
  held p = Some c ->
  rollback p =
  let (w, r) := pg_rollback c (server p) in
  ({| server := w; trace := trace p ++ [EvRollback c]; _instance := _instance p |}, r).
Proof.
  intros Hc. unfold rollback. unfold bind at 1.
  rewrite connection_held with (c := c) by assumption. run.
  destruct (pg_rollback c (server p)) as [w [[]|e]]; reflexivity.
Qed.

(** The [with] block of [insert_record] makes one call to the driver
    and leaves the [Database] object alone. *)
Lemma insert_returning_held p c query vars :
  held p = Some c ->
  exists w r,
    insert_returning query vars p =
    ({| server := w; trace := trace p ++ [EvExecute c query vars];
        _instance := _instance p |}, r)
    /\ fst (pg_execute c query vars (server p)) = w.
Proof.
  intros Hc. unfold insert_returning. unfold bind at 1.
  rewrite cursor_execute_held with (c := c) by assumption.
  destruct (pg_execute c query vars (server p)) as [w [cur|e]]; simpl.
  - unfold fetchone, description_names. run.
    destruct (description cur); run; [destruct (hd_error (rows cur))|]; eauto.
  - eauto.
Qed.

(** C7. [update_record] with lists of different lengths raises the
    validation error at once: the process is left exactly as it was, so
    no statement reached the driver and nothing was committed. *)
Theorem update_record_length_mismatch
        table columns (values : list value) where_clause where_values autocommit p :
  length columns <> length values ->
  update_record table columns values where_clause where_values autocommit p =
  (p, Raise (ValueError "The number of columns must match the number of values.")).
Proof.
  intros Hlen. unfold update_record.
  destruct (Nat.eqb_spec (length columns) (length values)) as [E|_];
    [contradiction | reflexivity].
Qed.

(** C4, as amended. When the statement or the reading of the returned
    row fails, [insert_record] calls rollback; if the rollback returns,
    the error is printed and the empty dictionary is returned, and if
    the rollback itself raises, that exception reaches the caller and
    nothing is printed. *)
Theorem insert_record_failure table columns values autocommit p c stmt p1 e :
  held p = Some c ->
  insert_statement table (insert_fields columns values) = Ok stmt ->
  insert_returning stmt (PyDict.values (insert_fields columns values)) p
    = (p1, Raise e) ->
  insert_record table columns values autocommit p =
  match pg_rollback c (server p1) with
  | (w, Ok _) =>
      ({| server := w;
          trace := trace p ++
            [EvExecute c stmt (PyDict.values (insert_fields columns values));
             EvRollback c;
             EvPrint ("[ERROR] insert_record failed: " ++ str_exn e)%string];
          _instance := _instance p |}, Ok PyDict.empty)
  | (w, Raise e') =>
      ({| server := w;
          trace := trace p ++
            [EvExecute c stmt (PyDict.values (insert_fields columns values));
             EvRollback c];
          _instance := _instance p |}, Raise e')
  end.
Proof.
  intros Hc Hstmt Hret.
  destruct (insert_returning_held p stmt
              (PyDict.values (insert_fields columns values)) Hc)
    as (w1 & r & Hshape & _).
  rewrite Hret in Hshape. inversion Hshape; subst p1 r; clear Hshape.
  unfold insert_record. rewrite Hstmt. unfold lift. unfold bind at 1.
  rewrite Hret. unfold insert_failed. unfold bind at 1.
  rewrite rollback_held with (c := c) by exact Hc. simpl.
  destruct (pg_rollback c w1) as [w2 [[]|e']]; run;
    repeat rewrite <- app_assoc; reflexivity.
Qed.

(** C9. With [autocommit] set, when the INSERT returns a row and the
    commit then raises, [insert_record] rolls back and still returns the
    row it had read: a dictionary that is not empty, for a row that was
    not persisted. *)
Theorem insert_record_commit_failure
        table columns values p c stmt w1 cur k ks v vs more w2 e w3 :
  held p = Some c ->
  insert_statement table (insert_fields columns values) = Ok stmt ->
  pg_execute c stmt (PyDict.values (insert_fields columns values)) (server p)
    = (w1, Ok cur) ->
  description cur = Some (k :: ks) ->
  rows cur = (v :: vs) :: more ->
  pg_commit c w1 = (w2, Raise e) ->
  pg_rollback c w2 = (w3, Ok tt) ->
  insert_record table columns values true p =
  ({| server := w3;
      trace := trace p ++
        [EvExecute c stmt (PyDict.values (insert_fields columns values));
         EvCommit c;
         EvRollback c;
         EvPrint ("[ERROR] insert_record failed: " ++ str_exn e)%string];
      _instance := _instance p |},
   Ok (PyDict.of_pairs (zip (k :: ks) (v :: vs))))
  /\ In k (PyDict.keys (PyDict.of_pairs (zip (k :: ks) (v :: vs)))).
Proof.
  intros Hc Hstmt Hexec Hdesc Hrows Hcommit Hrollback. split.
  - unfold insert_record. rewrite Hstmt. unfold lift. unfold bind at 1.
    unfold insert_returning. unfold bind at 1.
    rewrite cursor_execute_held with (c := c) by exact Hc.
    rewrite Hexec. unfold description_names, fetchone.
    rewrite Hdesc, Hrows. run.
    rewrite commit_held with (c := c) by exact Hc. simpl.
    rewrite Hcommit. unfold insert_failed. unfold bind at 1.
    rewrite rollback_held with (c := c) by exact Hc. simpl.
    rewrite Hrollback. run.
    repeat rewrite <- app_assoc. reflexivity.
  - change (PyDict.of_pairs (zip (k :: ks) (v :: vs)))
      with (PyDict.of_pairs_if (fun _ => true) (zip (k :: ks) (v :: vs))).
    apply of_pairs_if_has_key with (v := v); [now left | reflexivity].
Qed.

(** Whatever happens, the first thing [insert_record] does is run its
    statement, with the values of the record it kept. *)
Lemma insert_record_first_event table columns values autocommit p c :
  held p = Some c ->
  exists rest,
    trace (fst (insert_record table columns values autocommit p)) =
    trace p ++
      EvExecute c
        (sql.Composed
           [sql.SQL "INSERT INTO "; sql.Identifier [table]; sql.SQL " (";
            sql.join "," (map (fun col => sql.Identifier [col])
                              (PyDict.keys (insert_fields columns values)));
            sql.SQL ") VALUES (";
            sql.join "," (repeat (sql.Placeholder None)
                                 (length (insert_fields columns values)));
            sql.SQL ") RETURNING *;"])
        (PyDict.values (insert_fields columns values)) :: rest.
Proof.
  intros Hc. unfold insert_record.
  rewrite insert_statement_shape. unfold lift. unfold bind at 1.
  match goal with
  | |- context [insert_returning ?q ?vs p] =>
      destruct (insert_returning_held p q vs Hc) as (w1 & r & Hshape & _);
      rewrite Hshape
  end.
  destruct r as [inserted|e].
  - destruct autocommit; [|exists []; reflexivity].
    rewrite commit_held with (c := c) by exact Hc. simpl.
    destruct (pg_commit c w1) as [w2 [[]|e]].
    + eexists. simpl. rewrite <- app_assoc. reflexivity.
    + unfold insert_failed. unfold bind at 1.
      rewrite rollback_held with (c := c) by exact Hc. simpl.
      destruct (pg_rollback c w2) as [w3 [[]|e']]; run;
        eexists; repeat rewrite <- app_assoc; reflexivity.
  - unfold insert_failed. unfold bind at 1.
    rewrite rollback_held with (c := c) by exact Hc. simpl.
    destruct (pg_rollback c w1) as [w2 [[]|e']]; run;
      eexists; repeat rewrite <- app_assoc; reflexivity.
Qed.

(** C5. The INSERT statement [insert_record] hands to the driver names
    no column that starts with an underscore, and binds exactly one
    value per named column, the value that column was paired with.
    Every public column of the input is named. *)
Theorem insert_record_excludes_private table columns values autocommit p c :
  held p = Some c ->
  exists fields vars rest,
    trace (fst (insert_record table columns values autocommit p)) =
    trace p ++
      EvExecute c
        (sql.Composed
           [sql.SQL "INSERT INTO "; sql.Identifier [table]; sql.SQL " (";
            sql.join "," (map (fun col => sql.Identifier [col]) fields);
            sql.SQL ") VALUES (";
            sql.join "," (repeat (sql.Placeholder None) (length fields));
            sql.SQL ") RETURNING *;"])
        vars :: rest
    /\ length vars = length fields
    /\ (forall col, startswith col "_" = true -> ~ In col fields)
    /\ (forall col v, In (col, v) (zip fields vars) ->
                      In (col, v) (zip columns values)
                      /\ startswith col "_" = false)
    /\ (forall col v, In (col, v) (zip columns values) ->
                      startswith col "_" = false -> In col fields).
Proof.
  intros Hc.
  destruct (insert_record_first_event table columns values autocommit p Hc)
    as [rest Htrace].
  exists (PyDict.keys (insert_fields columns values)),
         (PyDict.values (insert_fields columns values)), rest.
  assert (Hentries : forall col v,
             In (col, v) (insert_fields columns values) ->
             In (col, v) (zip columns values) /\ startswith col "_" = false).
  { intros col v Hin. apply of_pairs_if_In in Hin. destruct Hin as [Hin Hk].
    split; [assumption|]. now apply negb_true_iff in Hk. }
  split; [|split; [|split; [|split]]].
  - unfold PyDict.keys at 2. rewrite length_map. exact Htrace.
  - unfold PyDict.keys, PyDict.values. now rewrite !length_map.
  - intros col Hpriv Hin. apply keys_In in Hin. destruct Hin as [v Hin].
    apply Hentries in Hin. destruct Hin as [_ Hpub]. congruence.
  - intros col v Hin. rewrite keys_values_zip in Hin. now apply Hentries.
  - intros col v Hin Hpub.
    apply (of_pairs_if_has_key (fun col => negb (startswith col "_")) _ _ v Hin).
    now rewrite Hpub.
Qed.

(** [select_records] makes one call to the driver, with the statement
    [select_statement] builds. *)
Lemma select_records_trace table columns where_clause where_values p c stmt :
  held p = Some c ->
  select_statement table columns where_clause = Ok stmt ->
  trace (fst (select_records table columns where_clause where_values p)) =
  trace p ++ [EvExecute c stmt match where_values with
                               | Some (v :: vs) => v :: vs
                               | _ => []
                               end].
Proof.
  intros Hc Hstmt. unfold select_records. rewrite Hstmt.
  unfold lift. unfold bind at 1. unfold bind at 1.
  rewrite cursor_execute_held with (c := c) by exact Hc.
  destruct (pg_execute c stmt _ (server p)) as [w [cur|e]]; [|reflexivity].
  unfold description_names, fetchall. destruct (description cur); reflexivity.
Qed.

(** C10. A [columns] argument that is a string, whatever the string,
    goes into the SELECT statement sent to the driver as raw SQL text and
    is rendered as it is; only the names of a list are made identifiers
    and quoted. *)
Theorem select_records_columns_string_verbatim
        table s where_clause where_values p c :
  held p = Some c ->
  exists tail vars,
    trace (fst (select_records table (ColumnStr s) where_clause where_values p))
    = trace p ++
        [EvExecute c
           (sql.Composed ([sql.SQL "SELECT "; sql.SQL s; sql.SQL " FROM ";
                           sql.Identifier [table]] ++ tail)) vars]
    /\ sql.as_string
         (sql.Composed ([sql.SQL "SELECT "; sql.SQL s; sql.SQL " FROM ";
                         sql.Identifier [table]] ++ tail))
       = ("SELECT " ++ s ++ " FROM " ++ sql.quote_ident table
          ++ String.concat "" (map sql.as_string tail))%string
    /\ (forall names,
          trace (fst (select_records table (ColumnList names)
                                     where_clause where_values p))
          = trace p ++
              [EvExecute c
                 (sql.Composed
                    ([sql.SQL "SELECT ";
                      sql.join ", " (map (fun col => sql.Identifier [col]) names);
                      sql.SQL " FROM "; sql.Identifier [table]] ++ tail)) vars]
          /\ sql.as_string
               (sql.Composed
                  ([sql.SQL "SELECT ";
                    sql.join ", " (map (fun col => sql.Identifier [col]) names);
                    sql.SQL " FROM "; sql.Identifier [table]] ++ tail))
             = ("SELECT " ++ str_join ", " (map sql.quote_ident names)
                ++ " FROM " ++ sql.quote_ident table
                ++ String.concat "" (map sql.as_string tail))%string).
Proof.
  intros Hc.
  exists (match where_clause with
          | Some w => if str_truthy w then [sql.SQL " WHERE "; sql.SQL w] else []
          | None => []
          end),
         (match where_values with
          | Some (v :: vs) => v :: vs
          | _ => []
          end).
  split; [|split; [|intros names; split]].
  - apply select_records_trace; [exact Hc | apply select_statement_shape].
  - cbn [sql.as_string map app]. rewrite !concat_nosep_cons.
    cbn [str_join String.concat map]. reflexivity.
  - apply select_records_trace; [exact Hc | apply select_statement_shape].
  - cbn [sql.as_string map app]. rewrite !concat_nosep_cons.
    rewrite render_join, render_identifiers.
    cbn [str_join String.concat map]. reflexivity.
Qed.

(** C1, as the code has it. Calling [Database()] connects, whether or
    not an instance with a connection already exists, and the
    connection it obtains replaces the one the instance held. *)
Theorem Database_connects_on_every_call cfg p :
  trace (fst (Database cfg p)) =
  trace p ++ [EvConnect (DB_NAME cfg) (DB_USER cfg) (DB_PASSWORD cfg)
                        (DB_HOST cfg) (DB_PORT cfg)]
  /\ match pg_connect (DB_NAME cfg) (DB_USER cfg) (DB_PASSWORD cfg)
                      (DB_HOST cfg) (DB_PORT cfg) (server p) with
     | (_, Ok c) => held (fst (Database cfg p)) = Some c
                    /\ snd (Database cfg p) = Ok tt
     | (_, Raise e) => snd (Database cfg p) = Raise e
     end.
Proof.
  destruct p as [w0 events [o|]];
    unfold Database, __new__, __init__, set_self, held; run;
    destruct (pg_connect _ _ _ _ _ w0) as [w [c|e]]; simpl; auto.
Qed.

End DatabaseFacts.

(** ** Rebuilding a dictionary from its own items *)

Section DictRebuild.
Variable V : Type.
Variable keep : string -> bool.
Implicit Types (d : PyDict.dict V) (l : list (string * V)).

Let step := fun d (kv : string * V) =>
  if keep (fst kv) then PyDict.set d (fst kv) (snd kv) else d.

Lemma set_fresh d k v :
  ~ In k (PyDict.keys d) -> PyDict.set d k v = d ++ [(k, v)].
Proof.
  induction d as [|[k0 v0] d IH]; simpl; intros Hfresh; [reflexivity|].
  destruct (String.eqb_spec k0 k) as [->|Hne].
  - exfalso. apply Hfresh. now left.
  - rewrite IH; [reflexivity|]. intros Hin. apply Hfresh. now right.
Qed.

Lemma set_keys d k v :
  PyDict.keys (PyDict.set d k v) =
  if existsb (String.eqb k) (PyDict.keys d) then PyDict.keys d
  else PyDict.keys d ++ [k].
Proof.
  induction d as [|[k0 v0] d IH]; simpl; [reflexivity|].
  rewrite (String.eqb_sym k k0).
  destruct (String.eqb_spec k0 k) as [->|Hne]; simpl; [reflexivity|].
  rewrite IH. now destruct (existsb (String.eqb k) (PyDict.keys d)).
Qed.

Lemma set_NoDup d k v :
  NoDup (PyDict.keys d) -> NoDup (PyDict.keys (PyDict.set d k v)).
Proof.
  intros Hnd. rewrite set_keys.
  destruct (existsb (String.eqb k) (PyDict.keys d)) eqn:E; [assumption|].
  apply NoDup_app; [assumption | repeat constructor; intros [] |].
  intros x Hx [Ex|[]]. subst x.
  assert (existsb (String.eqb k) (PyDict.keys d) = true) as Habs; [|congruence].
  apply existsb_exists. exists k. split; [assumption | apply String.eqb_refl].
Qed.

Lemma fold_if_NoDup l : forall d,
  NoDup (PyDict.keys d) -> NoDup (PyDict.keys (fold_left step l d)).
Proof.
  induction l as [|[k v] l IH]; simpl; intros d Hnd; [assumption|].
  apply IH. unfold step; simpl. destruct (keep k); [now apply set_NoDup | assumption].
Qed.

(** The keys of a comprehension are distinct. *)
Lemma of_pairs_if_NoDup l : NoDup (PyDict.keys (PyDict.of_pairs_if keep l)).
Proof. apply fold_if_NoDup. constructor. Qed.

Lemma fold_if_fresh l : forall d,
  NoDup (PyDict.keys (d ++ l)) ->
  (forall k, In k (PyDict.keys l) -> keep k = true) ->
  fold_left step l d = d ++ l.
Proof.
  induction l as [|[k v] l IH]; simpl; intros d Hnd Hkeep.
  - now rewrite app_nil_r.
  - unfold step at 2; simpl. rewrite (Hkeep k) by now left.
    assert (Hfresh : ~ In k (PyDict.keys d)).
    { unfold PyDict.keys in *. rewrite map_app in Hnd. simpl in Hnd.
      apply NoDup_remove_2 in Hnd. intros Hin. apply Hnd.
      apply in_or_app. now left. }
    rewrite set_fresh by assumption.
    rewrite IH.
    + now rewrite <- app_assoc.
    + now rewrite <- app_assoc.
    + intros k' Hin. apply Hkeep. now right.
Qed.

(** Filtering a dictionary whose keys all pass the filter changes nothing. *)
Lemma of_pairs_if_fixed d :
  NoDup (PyDict.keys d) ->
  (forall k, In k (PyDict.keys d) -> keep k = true) ->
  PyDict.of_pairs_if keep d = d.
Proof. intros Hnd Hkeep. apply (fold_if_fresh d [] Hnd Hkeep). Qed.

(** ... so the comprehension is idempotent. *)
Lemma of_pairs_if_idempotent l :
  PyDict.of_pairs_if keep (PyDict.of_pairs_if keep l) = PyDict.of_pairs_if keep l.
Proof.
  apply of_pairs_if_fixed; [apply of_pairs_if_NoDup|].
  intros k Hin. apply keys_In in Hin. destruct Hin as [v Hin].
  now apply of_pairs_if_In in Hin.
Qed.

End DictRebuild.

(** ** The model mapping layer *)

Section BaseModelFacts.
Context {value world : Type} `{PV : PyValue value} `{DR : Driver value world}.
Import Database BaseModel.

Abbreviation process := (Database.process value world).
Implicit Types (p : process) (cls : BaseModel.class value)
         (self : BaseModel.instance value).

(** Reading the key columns of a record. *)
Abbreviation key_of record :=
  (fun col_id : string =>
     match PyDict.get record col_id with
     | Some v => ret v
     | None => raise (KeyError col_id)
     end : P value).


Lemma key_of_empty (ids : list string) p :
  for_each (key_of (@PyDict.empty value)) ids p =
  (p, match ids with
      | [] => Ok []
      | col_id :: _ => Raise (KeyError col_id)
      end).
Proof. destruct ids; reflexivity. Qed.


(** C2, as amended. After a failed insert, that is when
    [insert_record] hands back the empty dictionary, [dump] returns the
    empty list if the class has no key column and otherwise raises
    [KeyError] for its first key column. *)
Theorem dump_after_failed_insert cls self p p' :
  insert_record (table_name cls) (PyDict.keys (dict_record self))
                (PyDict.values (dict_record self)) false p
    = (p', Ok PyDict.empty) ->
  dump cls self p =
  (p', match table_id cls with
       | [] => Ok []
       | col_id :: _ => Raise (KeyError col_id)
       end).
Proof.
  intros Hinsert. unfold dump. unfold bind at 1. rewrite Hinsert.
  apply key_of_empty.
Qed.

(** C6. When the select by key returns no row, [from_database_id]
    raises the not-found [ValueError]; when the select itself raises, it
    raises the [ValueError] that reports the failed fetch; the two never
    carry the same message. *)
Theorem from_database_id_not_found cls record_id p p' :
  length record_id = length (table_id cls) ->
  select_records (table_name cls) (ColumnStr "*")
                 (Some (where_clause cls)) (Some record_id) p = (p', Ok []) ->
  from_database_id cls record_id p =
  (p', Raise (ValueError ("Record ID: " ++ str_list repr record_id
                          ++ " not found.")%string))
  /\ (forall q q' e,
         select_records (table_name cls) (ColumnStr "*")
                        (Some (where_clause cls)) (Some record_id) q
           = (q', Raise e) ->
         from_database_id cls record_id q =
         (q', Raise (ValueError ("Failed to fetch record from database. Error: "
                                 ++ str_exn e)%string)))
  /\ (forall e,
         ValueError ("Record ID: " ++ str_list repr record_id ++ " not found.")%string
         <> ValueError ("Failed to fetch record from database. Error: "
                        ++ str_exn e)%string).
Proof.
  intros Hlen Hselect.
  assert (Hcheck : negb (length record_id =? length (table_id cls))%nat = false).
  { rewrite Hlen, Nat.eqb_refl. reflexivity. }
  repeat split.
  - unfold from_database_id. rewrite Hcheck.
    unfold bind at 1, try_except. rewrite Hselect. reflexivity.
  - intros q q' e Hraise. unfold from_database_id. rewrite Hcheck.
    unfold bind at 1, try_except. rewrite Hraise. reflexivity.
  - intros e Heq. simpl in Heq. discriminate.
Qed.

End BaseModelFacts.

(** ** The bootstrap routine *)

Section BootstrapFacts.
Context {world : Type} `{DR : Driver string world} `{FS : FileSystem world}.
Import initialize.

Abbreviation process := (initialize.process world).
Implicit Types (p : process) (c : conn).

(** Run the script up to the next call it makes. *)
Ltac exec :=
  cbv beta iota zeta delta
      [initialize_database connect set_autocommit close create_database
       apply_schema cursor_execute database_exists
       bind ret raise emit call print server trace negb Nat.ltb Nat.leb length].

(** C8. A run that finds no database of that name creates it and runs
    the schema file, once each; a second run, started where the first
    ended and finding the database, only asks whether it exists. *)
Theorem initialize_database_idempotent
        dbname user password host port p
        w1 c1 w2 cur w3 created w4 w5 c2 schema w6 applied
        w7 c3 w8 cur' w9 :
  (* first run: the database is not in the catalog *)
  pg_connect "postgres" user password host port (server p) = (w1, Ok c1) ->
  pg_execute c1 (sql.SQL "SELECT 1 FROM pg_database WHERE datname = %s;")
             [dbname] w1 = (w2, Ok cur) ->
  rows cur = [] ->
  pg_execute c1 (sql.SQL ("CREATE DATABASE " ++ dbname)%string) [] w2
    = (w3, Ok created) ->
  pg_close c1 w3 = (w4, Ok tt) ->
  pg_connect dbname user password host port w4 = (w5, Ok c2) ->
  path_exists "database_config/schema.sql" w5 = true ->
  read_file "database_config/schema.sql" w5 = Ok schema ->
  pg_execute c2 (sql.SQL schema) [] w5 = (w6, Ok applied) ->
  (* second run: the database is in the catalog *)
  pg_connect "postgres" user password host port w6 = (w7, Ok c3) ->
  pg_execute c3 (sql.SQL "SELECT 1 FROM pg_database WHERE datname = %s;")
             [dbname] w7 = (w8, Ok cur') ->
  rows cur' <> [] ->
  pg_close c3 w8 = (w9, Ok tt) ->
  let first_run :=
    [EvConnect "postgres" user password host port;
     EvAutocommit c1 true;
     EvExecute c1 (sql.SQL "SELECT 1 FROM pg_database WHERE datname = %s;") [dbname];
     EvExecute c1 (sql.SQL ("CREATE DATABASE " ++ dbname)%string) [];
     EvPrint "Database created";
     EvClose c1;
     EvConnect dbname user password host port;
     EvAutocommit c2 true;
     EvExecute c2 (sql.SQL schema) [];
     EvPrint "Schema applied"] in
  let second_run :=
    [EvConnect "postgres" user password host port;
     EvAutocommit c3 true;
     EvExecute c3 (sql.SQL "SELECT 1 FROM pg_database WHERE datname = %s;") [dbname];
     EvClose c3] in
  let p1 := {| server := w6; trace := trace p ++ first_run |} in
  let p2 := {| server := w9; trace := (trace p ++ first_run) ++ second_run |} in
  initialize_database dbname user password host port p = (p1, Ok tt)
  /\ initialize_database dbname user password host port p1 = (p2, Ok tt).
Proof.
  intros Hconn1 Hask1 Hnone Hcreate Hclose1 Hconn2 Hfile Hread Hschema
         Hconn3 Hask2 Hsome Hclose3.
  destruct p as [w0 events]. cbn [server trace] in *.
  split.
  - exec. rewrite Hconn1.
    exec. rewrite Hask1.
    exec. rewrite Hnone.
    exec. rewrite Hcreate.
    exec. rewrite Hclose1.
    exec. rewrite Hconn2.
    exec. rewrite Hfile.
    exec. rewrite Hread.
    exec. rewrite Hschema.
    exec. repeat rewrite <- app_assoc. reflexivity.
  - exec. rewrite Hconn3.
    exec. rewrite Hask2.
    exec. destruct (rows cur') as [|r rs]; [contradiction|].
    exec. rewrite Hclose3.
    exec. repeat rewrite <- app_assoc. reflexivity.
Qed.

End BootstrapFacts.

(** ** The code on concrete inputs *)

Section Runs.
Import Database BaseModel Scripted.

(** C7 on lists of lengths two and one. *)
Lemma update_record_length_mismatch_witness :
  length ["name"; "age"] <> length [PStr "Alice"]
  /\ update_record "users" ["name"; "age"] [PStr "Alice"] "id = %s" [PInt 1] false
                   (started (answering []))
     = (started (answering []),
        Raise (ValueError "The number of columns must match the number of values.")).
Proof.
  split; [simpl; lia|].
  apply update_record_length_mismatch. simpl; lia.
Defined.

(** C4, as amended: the statement fails and the rollback returns. *)
Lemma insert_record_failure_witness :
  insert_record "users" ["name"] [PStr "Alice"] false
                (started (answering [Raise (DriverError "duplicate key")]))
  = ({| server := answering [];
        trace := [EvExecute 0 insert_name [PStr "Alice"];
                  EvRollback 0;
                  EvPrint "[ERROR] insert_record failed: duplicate key"];
        _instance := _instance (started (answering [])) |},
      Ok PyDict.empty).
Proof.
  exact (@insert_record_failure pyval script _ _
           "users" ["name"] [PStr "Alice"] false
           (started (answering [Raise (DriverError "duplicate key")]))
           0 _ _ _ eq_refl eq_refl eq_refl).
Defined.

(** C4 as stated fails: the statement fails on a connection that is
    gone, the rollback raises in turn, and that exception leaves
    [insert_record]; nothing is printed and nothing is returned. *)
Lemma insert_record_rollback_raises :
  insert_statement "users" (insert_fields ["name"] [PStr "Alice"]) = Ok insert_name
  /\ snd (insert_returning insert_name [PStr "Alice"] (started lost_connection))
     = Raise (DriverError "server closed the connection unexpectedly")
  /\ snd (insert_record "users" ["name"] [PStr "Alice"] false (started lost_connection))
     = Raise (DriverError "connection already closed")
  /\ trace (fst (insert_record "users" ["name"] [PStr "Alice"] false
                               (started lost_connection)))
     = [EvExecute 0 insert_name [PStr "Alice"]; EvRollback 0].
Proof. repeat split; reflexivity. Qed.

(** C9 on a server that fails to commit: the row comes back although
    the transaction was rolled back. *)
Lemma insert_record_commit_failure_witness :
  insert_record "users" ["name"] [PStr "Alice"] true (started failing_commit)
  = ({| server := {| opened := 1; replies := [];
                     on_commit := Raise (DriverError "could not serialize access");
                     on_rollback := Ok tt |};
        trace := [EvExecute 0 insert_name [PStr "Alice"];
                  EvCommit 0;
                  EvRollback 0;
                  EvPrint "[ERROR] insert_record failed: could not serialize access"];
        _instance := _instance (started failing_commit) |},
      Ok [("id", PInt 1); ("name", PStr "Alice")])
  /\ In "id" (PyDict.keys (PyDict.of_pairs (zip ["id"; "name"] [PInt 1; PStr "Alice"]))).
Proof.
  exact (@insert_record_commit_failure pyval script _ _
           "users" ["name"] [PStr "Alice"] (started failing_commit)
           0 _ _ _ "id" ["name"] (PInt 1) [PStr "Alice"] [] _ _ _
           eq_refl eq_refl eq_refl eq_refl eq_refl eq_refl eq_refl).
Defined.

(** C5 on an input with a private column in the middle. *)
Lemma insert_record_excludes_private_witness :
  held (started (answering [alice_row])) = Some 0
  /\ exists fields vars rest,
    trace (fst (insert_record "users" ["name"; "_cache"; "age"]
                              [PStr "Alice"; PNone; PInt 30] false
                              (started (answering [alice_row])))) =
    trace (started (answering [alice_row])) ++
      EvExecute 0
        (sql.Composed
           [sql.SQL "INSERT INTO "; sql.Identifier ["users"]; sql.SQL " (";
            sql.join "," (map (fun col => sql.Identifier [col]) fields);
            sql.SQL ") VALUES (";
            sql.join "," (repeat (sql.Placeholder None) (length fields));
            sql.SQL ") RETURNING *;"])
        vars :: rest
    /\ length vars = length fields
    /\ (forall col, startswith col "_" = true -> ~ In col fields)
    /\ (forall col v, In (col, v) (zip fields vars) ->
                      In (col, v) (zip ["name"; "_cache"; "age"]
                                       [PStr "Alice"; PNone; PInt 30])
                      /\ startswith col "_" = false)
    /\ (forall col v, In (col, v) (zip ["name"; "_cache"; "age"]
                                       [PStr "Alice"; PNone; PInt 30]) ->
                      startswith col "_" = false -> In col fields).
Proof.
  split; [reflexivity|].
  apply (@insert_record_excludes_private pyval script _ _
           "users" ["name"; "_cache"; "age"] [PStr "Alice"; PNone; PInt 30] false
           (started (answering [alice_row])) 0).
  reflexivity.
Defined.

(** The same run, spelled out: the statement names [name] and [age]
    and binds their two values. *)
Example insert_record_private_column_run :
  trace (fst (insert_record "users" ["name"; "_cache"; "age"]
                            [PStr "Alice"; PNone; PInt 30] false
                            (started (answering [alice_row]))))
  = [EvExecute 0
       (sql.Composed
          [sql.SQL "INSERT INTO "; sql.Identifier ["users"]; sql.SQL " (";
           sql.Composed [sql.Identifier ["name"]; sql.SQL ","; sql.Identifier ["age"]];
           sql.SQL ") VALUES (";
           sql.Composed [sql.Placeholder None; sql.SQL ","; sql.Placeholder None];
           sql.SQL ") RETURNING *;"])
       [PStr "Alice"; PInt 30]].
Proof. reflexivity. Qed.

(** C2 as stated fails: the insert fails, [insert_record] hands back
    the empty dictionary, and [dump] raises on the key column. *)
Lemma dump_raises_after_failed_insert :
  exists p',
    insert_record "users" ["name"] [PStr "Alice"] false
                  (started (answering [Raise (DriverError "duplicate key")]))
      = (p', Ok PyDict.empty)
    /\ dump users alice (started (answering [Raise (DriverError "duplicate key")]))
       = (p', Raise (KeyError "id")).
Proof. eexists. split; reflexivity. Qed.

(** C2, as amended, on a class without key columns. *)
Lemma dump_after_failed_insert_witness :
  dump log [("msg", PStr "started")]
       (started (answering [Raise (DriverError "relation does not exist")]))
  = (fst (insert_record "log" ["msg"] [PStr "started"] false
            (started (answering [Raise (DriverError "relation does not exist")]))),
     Ok []).
Proof.
  exact (@dump_after_failed_insert pyval script _ _ log [("msg", PStr "started")]
           (started (answering [Raise (DriverError "relation does not exist")]))
           _ eq_refl).
Defined.

(** C6 on a key no row has. *)
Lemma from_database_id_not_found_witness :
  from_database_id users [PInt 7] (started (answering [no_row]))
  = ({| server := answering [];
        trace := [EvExecute 0 select_by_id [PInt 7]];
        _instance := _instance (started (answering [])) |},
     Raise (ValueError "Record ID: [7] not found.")).
Proof.
  exact (proj1 (@from_database_id_not_found pyval script _ _ users [PInt 7]
                  (started (answering [no_row])) _ eq_refl eq_refl)).
Defined.

(** The select itself failing gives the other message. *)
Example from_database_id_query_fails :
  snd (from_database_id users [PInt 7]
         (started (answering [Raise (DriverError "relation does not exist")])))
  = Raise (ValueError
             "Failed to fetch record from database. Error: relation does not exist").
Proof. reflexivity. Qed.


(** With a constructor that stores the row, the rebuilt instance has
    the key the server assigned, which the original does not have. *)
Example round_trip_gains_key :
  exists p1 p2 rebuilt,
    dump users_storing alice (started (answering [alice_row; alice_row]))
      = (p1, Ok [PInt 1])
    /\ from_database_id users_storing [PInt 1] p1 = (p2, Ok rebuilt)
    /\ dict_record rebuilt = [("id", PInt 1); ("name", PStr "Alice")]
    /\ dict_record alice = [("name", PStr "Alice")].
Proof. do 3 eexists. repeat split; reflexivity. Qed.

(** C10 on a string that is not a column name. *)
Lemma select_records_columns_string_verbatim_witness :
  held (started (answering [alice_row])) = Some 0
  /\ exists tail vars,
    trace (fst (select_records "users" (ColumnStr "1; DROP TABLE users; --")
                               None None (started (answering [alice_row]))))
    = trace (started (answering [alice_row])) ++
        [EvExecute 0
           (sql.Composed ([sql.SQL "SELECT "; sql.SQL "1; DROP TABLE users; --";
                           sql.SQL " FROM "; sql.Identifier ["users"]] ++ tail)) vars]
    /\ sql.as_string
         (sql.Composed ([sql.SQL "SELECT "; sql.SQL "1; DROP TABLE users; --";
                         sql.SQL " FROM "; sql.Identifier ["users"]] ++ tail))
       = ("SELECT " ++ "1; DROP TABLE users; --" ++ " FROM " ++ sql.quote_ident "users"
          ++ String.concat "" (map sql.as_string tail))%string
    /\ (forall names,
          trace (fst (select_records "users" (ColumnList names) None None
                                     (started (answering [alice_row]))))
          = trace (started (answering [alice_row])) ++
              [EvExecute 0
                 (sql.Composed
                    ([sql.SQL "SELECT ";
                      sql.join ", " (map (fun col => sql.Identifier [col]) names);
                      sql.SQL " FROM "; sql.Identifier ["users"]] ++ tail)) vars]
          /\ sql.as_string
               (sql.Composed
                  ([sql.SQL "SELECT ";
                    sql.join ", " (map (fun col => sql.Identifier [col]) names);
                    sql.SQL " FROM "; sql.Identifier ["users"]] ++ tail))
             = ("SELECT " ++ str_join ", " (map sql.quote_ident names)
                ++ " FROM " ++ sql.quote_ident "users"
                ++ String.concat "" (map sql.as_string tail))%string).
Proof.
  split; [reflexivity|].
  apply (@select_records_columns_string_verbatim pyval script _
           "users" "1; DROP TABLE users; --" None None
           (started (answering [alice_row])) 0).
  reflexivity.
Defined.

(** The same run, and one with the name given in a list: the string is
    sent as it is, the listed name is quoted. *)
Example select_records_string_and_list :
  trace (fst (select_records "users" (ColumnStr "1; DROP TABLE users; --")
                             None None (started (answering [alice_row]))))
  = [EvExecute 0
       (sql.Composed [sql.SQL "SELECT "; sql.SQL "1; DROP TABLE users; --";
                      sql.SQL " FROM "; sql.Identifier ["users"]]) []]
  /\ sql.as_string
       (sql.Composed [sql.SQL "SELECT "; sql.SQL "1; DROP TABLE users; --";
                      sql.SQL " FROM "; sql.Identifier ["users"]])
     = ("SELECT 1; DROP TABLE users; -- FROM "
        ++ String sql.dquote "users" ++ String sql.dquote "")%string
  /\ sql.as_string
       (sql.Composed [sql.SQL "SELECT ";
                      sql.join ", " [sql.Identifier ["na;me"]];
                      sql.SQL " FROM "; sql.Identifier ["users"]])
     = ("SELECT " ++ String sql.dquote "na;me" ++ String sql.dquote " FROM "
        ++ String sql.dquote "users" ++ String sql.dquote "")%string.
Proof. repeat split; reflexivity. Qed.

(** C1: two calls of [Database()] in one process open two connections,
    and the instance ends up holding the second. *)
Example Database_twice :
  let w := {| opened := 0; replies := []; on_commit := Ok tt; on_rollback := Ok tt |} in
  let p1 := fst (Database cfg (fresh w)) in
  let p2 := fst (Database cfg p1) in
  held p1 = Some 0
  /\ held p2 = Some 1
  /\ trace p2 = [EvConnect "cars" "scraper" "secret" "localhost" "5432";
                 EvConnect "cars" "scraper" "secret" "localhost" "5432"].
Proof. repeat split; reflexivity. Qed.

End Runs.

Section BootstrapRuns.
Import initialize ToyServer.

(** C8 on a server that has only the maintenance database. *)
Lemma initialize_database_idempotent_witness :
  let first_run :=
    [EvConnect "postgres" "u" "pw" "localhost" "5432";
     EvAutocommit 0 true;
     EvExecute 0 (sql.SQL "SELECT 1 FROM pg_database WHERE datname = %s;") ["cars"];
     EvExecute 0 (sql.SQL "CREATE DATABASE cars") [];
     EvPrint "Database created";
     EvClose 0;
     EvConnect "cars" "u" "pw" "localhost" "5432";
     EvAutocommit 1 true;
     EvExecute 1 (sql.SQL "CREATE TABLE cars (id serial PRIMARY KEY);") [];
     EvPrint "Schema applied"] in
  let second_run :=
    [EvConnect "postgres" "u" "pw" "localhost" "5432";
     EvAutocommit 2 true;
     EvExecute 2 (sql.SQL "SELECT 1 FROM pg_database WHERE datname = %s;") ["cars"];
     EvClose 2] in
  let p0 := {| server := empty_server; trace := [] |} in
  let w1 := {| catalog := ["postgres"; "cars"]; opened := 2; files := files empty_server |} in
  let w2 := {| catalog := ["postgres"; "cars"]; opened := 3; files := files empty_server |} in
  initialize_database "cars" "u" "pw" "localhost" "5432" p0
  = ({| server := w1; trace := [] ++ first_run |}, Ok tt)
  /\ initialize_database "cars" "u" "pw" "localhost" "5432"
       {| server := w1; trace := [] ++ first_run |}
     = ({| server := w2; trace := ([] ++ first_run) ++ second_run |}, Ok tt).
Proof.
  cbv zeta.
  eapply (@initialize_database_idempotent state _ _
            "cars" "u" "pw" "localhost" "5432"
            {| server := empty_server; trace := [] |});
    try reflexivity.
  discriminate.
Defined.

End BootstrapRuns.

Example format_demo :
  sql.format "SELECT {fields} FROM {table}"
             [("fields", sql.SQL "*"); ("table", sql.Identifier ["users"])]
  = Ok (sql.Composed [sql.SQL "SELECT "; sql.SQL "*"; sql.SQL " FROM ";
                      sql.Identifier ["users"]]).
Proof. reflexivity. Qed.

(** * Further properties of the code *)

(** ** More on dictionaries *)

Section DictLookup.
Variable V : Type.
Variable keep : string -> bool.
Implicit Types (d : PyDict.dict V) (l : list (string * V)).

Let step := fun d (kv : string * V) =>
  if keep (fst kv) then PyDict.set d (fst kv) (snd kv) else d.

Lemma get_In_NoDup d k v :
  NoDup (PyDict.keys d) -> In (k, v) d -> PyDict.get d k = Some v.
Proof.
  induction d as [|[k0 v0] d IH]; simpl; intros Hnd Hin; [contradiction|].
  inversion Hnd as [|? ? Hfresh Hnd']; subst.
  destruct Hin as [E|Hin].
  - inversion E; subst. now rewrite String.eqb_refl.
  - destruct (String.eqb_spec k0 k) as [->|Hne]; [|now apply IH].
    exfalso. apply Hfresh. unfold PyDict.keys.
    change k with (fst (k, v)). now apply in_map.
Qed.

Lemma get_None_not_key d k :
  PyDict.get d k = None -> ~ In k (PyDict.keys d).
Proof.
  induction d as [|[k0 v0] d IH]; simpl; intros Hget; [tauto|].
  destruct (String.eqb_spec k0 k) as [->|Hne]; [discriminate|].
  intros [E|Hin]; [congruence | now apply IH].
Qed.

Lemma fold_if_filter l : forall d,
  NoDup (PyDict.keys (d ++ l)) ->
  fold_left step l d = d ++ filter (fun kv => keep (fst kv)) l.
Proof.
  induction l as [|[k v] l IH]; simpl; intros d Hnd.
  - now rewrite app_nil_r.
  - unfold step at 2; simpl. destruct (keep k).
    + assert (Hfresh : ~ In k (PyDict.keys d)).
      { unfold PyDict.keys in *. rewrite map_app in Hnd. simpl in Hnd.
        apply NoDup_remove_2 in Hnd. intros Hin. apply Hnd.
        apply in_or_app. now left. }
      rewrite set_fresh by assumption. rewrite IH.
      * now rewrite <- app_assoc.
      * now rewrite <- app_assoc.
    + apply IH. unfold PyDict.keys in *. rewrite map_app in *. simpl in Hnd.
      now apply NoDup_remove_1 in Hnd.
Qed.

(** On distinct keys a filtered comprehension is the filtered list. *)
Lemma of_pairs_if_filter l :
  NoDup (PyDict.keys l) ->
  PyDict.of_pairs_if keep l = filter (fun kv => keep (fst kv)) l.
Proof. intros Hnd. apply (fold_if_filter l [] Hnd). Qed.

End DictLookup.

Lemma zip_app_left {A B : Type} (a extra : list A) (b : list B) :
  length a = length b -> zip (a ++ extra) b = zip a b.
Proof.
  unfold zip. revert b.
  induction a as [|x a IH]; intros [|y b]; simpl; try discriminate.
  - now destruct extra.
  - intros Hlen. f_equal. apply IH. congruence.
Qed.

Lemma zip_app_right {A B : Type} (a : list A) (b extra : list B) :
  length a = length b -> zip a (b ++ extra) = zip a b.
Proof.
  unfold zip. revert b.
  induction a as [|x a IH]; intros [|y b]; simpl; try discriminate.
  - reflexivity.
  - intros Hlen. f_equal. apply IH. congruence.
Qed.

(** ** More on the statement builder *)

Section DatabaseMore.
Context {value world : Type} `{PV : PyValue value} `{DR : Driver value world}.
Import Database.

Abbreviation process := (Database.process value world).
Implicit Types (p : process) (c : conn).

Ltac run := unfold bind, ret, raise, lift, emit, call, print; simpl.

(** X1. [insert_record] does not compare the lengths of its two lists:
    the columns, or the values, beyond the length of the shorter list are
    dropped without an error. *)
Theorem insert_record_ignores_surplus
        table columns values more_columns more_values autocommit p :
  length columns = length values ->
  insert_record table (columns ++ more_columns) values autocommit p
  = insert_record table columns values autocommit p
  /\ insert_record table columns (values ++ more_values) autocommit p
     = insert_record table columns values autocommit p.
Proof.
  intros Hlen. unfold insert_record, insert_fields.
  rewrite (zip_app_left columns more_columns values Hlen).
  rewrite (zip_app_right columns values more_values Hlen).
  split; reflexivity.
Qed.

(** X2. The INSERT statement is always built, and its text names the
    table and the kept columns as quoted identifiers, with one
    placeholder per kept column; no value is part of the text. *)
Theorem insert_statement_text table (columns : list string) (values : list value) :
  exists stmt,
    insert_statement table (insert_fields columns values) = Ok stmt
    /\ sql.as_string stmt
       = ("INSERT INTO " ++ sql.quote_ident table ++ " ("
          ++ str_join "," (map sql.quote_ident
                               (PyDict.keys (insert_fields columns values)))
          ++ ") VALUES ("
          ++ str_join "," (repeat "%s" (length (insert_fields columns values)))
          ++ ") RETURNING *;")%string.
Proof.
  eexists. split; [apply insert_statement_shape|].
  cbn [sql.as_string map]. rewrite !concat_nosep_cons.
  rewrite !render_join, render_identifiers, render_placeholders.
  cbn [str_join String.concat map]. reflexivity.
Qed.

Lemma insert_fields_all_private columns (values : list value) :
  (forall col, In col columns -> startswith col "_" = true) ->
  insert_fields columns values = [].
Proof.
  intros Hpriv. unfold insert_fields, PyDict.of_pairs_if.
  assert (Hall : forall kv, In kv (zip columns values) ->
                            negb (startswith (fst kv) "_") = false).
  { intros [col v] Hin. apply in_combine_l in Hin. simpl.
    now rewrite (Hpriv col Hin). }
  cut (forall d : PyDict.dict value,
          fold_left (fun d kv => if negb (startswith (fst kv) "_")
                                 then PyDict.set d (fst kv) (snd kv) else d)
                    (zip columns values) d = d).
  { intros Hfold. apply Hfold. }
  induction (zip columns values) as [|kv l IH]; intros d; [reflexivity|].
  simpl. rewrite (Hall kv) by now left. apply IH.
  intros kv' Hin. apply Hall. now right.
Qed.

(** X3. When no column is public, in particular when there is no column,
    [insert_record] still goes to the driver, with an INSERT that names
    no column and binds no value. *)
Theorem insert_record_no_public_column table columns values autocommit p c :
  held p = Some c ->
  (forall col, In col columns -> startswith col "_" = true) ->
  exists stmt rest,
    trace (fst (insert_record table columns values autocommit p))
    = trace p ++ EvExecute c stmt [] :: rest
    /\ sql.as_string stmt
       = ("INSERT INTO " ++ sql.quote_ident table
          ++ " () VALUES () RETURNING *;")%string.
Proof.
  intros Hc Hpriv.
  destruct (insert_record_first_event table columns values autocommit p Hc)
    as [rest Htrace].
  rewrite (insert_fields_all_private columns values Hpriv) in Htrace.
  eexists. exists rest. split; [exact Htrace | reflexivity].
Qed.

(** X4. When the statement returns a row and the commit, if one is asked
    for, goes through, [insert_record] returns the first returned row
    keyed by the column names of the cursor; it commits exactly when
    [autocommit] is set, and does nothing else. *)
Theorem insert_record_success
        table columns values (autocommit : bool) p c stmt w1 cur names row more w2 :
  held p = Some c ->
  insert_statement table (insert_fields columns values) = Ok stmt ->
  pg_execute c stmt (PyDict.values (insert_fields columns values)) (server p)
    = (w1, Ok cur) ->
  description cur = Some names ->
  rows cur = row :: more ->
  (if autocommit then pg_commit c w1 else (w1, @Ok unit tt)) = (w2, Ok tt) ->
  insert_record table columns values autocommit p =
  ({| server := w2;
      trace := trace p ++
        EvExecute c stmt (PyDict.values (insert_fields columns values))
        :: (if autocommit then [EvCommit c] else []);
      _instance := _instance p |},
   Ok (PyDict.of_pairs (zip names row))).
Proof.
  intros Hc Hstmt Hexec Hdesc Hrows Hcommit.
  unfold insert_record. rewrite Hstmt. unfold lift. unfold bind at 1.
  unfold insert_returning. unfold bind at 1.
  rewrite cursor_execute_held with (c := c) by exact Hc.
  rewrite Hexec. unfold description_names, fetchone.
  rewrite Hdesc, Hrows. run.
  destruct autocommit.
  - rewrite commit_held with (c := c) by exact Hc. simpl.
    rewrite Hcommit. rewrite <- app_assoc. reflexivity.
  - inversion Hcommit; subst. reflexivity.
Qed.

(** X5. The only exception that leaves [insert_record] is one raised by
    the rollback in its handler: the call then ends on that rollback,
    with nothing printed after it. *)
Theorem insert_record_raises_only_from_rollback
        table columns values autocommit p c p' e :
  held p = Some c ->
  insert_record table columns values autocommit p = (p', Raise e) ->
  exists w events,
    pg_rollback c w = (server p', Raise e)
    /\ trace p' = trace p ++ events ++ [EvRollback c].
Proof.
  intros Hc. unfold insert_record.
  rewrite insert_statement_shape. unfold lift. unfold bind at 1.
  match goal with
  | |- context [insert_returning ?q ?vs p] =>
      destruct (insert_returning_held p q vs Hc) as (w1 & r & Hshape & _);
      rewrite Hshape
  end.
  destruct r as [inserted|e0].
  - destruct autocommit; [|discriminate].
    rewrite commit_held with (c := c) by exact Hc. simpl.
    destruct (pg_commit c w1) as [w2 [[]|e1]]; [discriminate|].
    unfold insert_failed. unfold bind at 1.
    rewrite rollback_held with (c := c) by exact Hc. simpl.
    destruct (pg_rollback c w2) as [w3 [[]|e']] eqn:Hrb; run; [discriminate|].
    intros E. inversion E; subst; clear E. simpl.
    exists w2. eexists [_; _]. split; [exact Hrb|].
    cbn [app]. rewrite <- !app_assoc. reflexivity.
  - unfold insert_failed. unfold bind at 1.
    rewrite rollback_held with (c := c) by exact Hc. simpl.
    destruct (pg_rollback c w1) as [w2 [[]|e']] eqn:Hrb; run; [discriminate|].
    intros E. inversion E; subst; clear E. simpl.
    exists w1. eexists [_]. split; [exact Hrb|].
    cbn [app]. rewrite <- !app_assoc. reflexivity.
Qed.

(** X6. The UPDATE statement is always built; its text quotes the
    table and each column, gives each column one placeholder, and ends
    with the caller's WHERE text as it was passed, even when that text is
    empty. *)
Theorem update_statement_text table columns where_clause :
  exists stmt,
    update_statement table columns where_clause = Ok stmt
    /\ sql.as_string stmt
       = ("UPDATE " ++ sql.quote_ident table ++ " SET "
          ++ str_join ", " (map (fun col => sql.quote_ident col ++ " = %s") columns)
          ++ " WHERE " ++ where_clause)%string.
Proof.
  eexists. split; [apply update_statement_shape|].
  cbn [sql.as_string map]. rewrite !concat_nosep_cons.
  rewrite render_join, map_map.
  cbn [str_join String.concat map]. rewrite append_empty_r.
  rewrite (map_ext _ (fun col => sql.quote_ident col ++ " = %s")%string);
    reflexivity.
Qed.

(** X7. With lists of equal length and a driver that runs the statement,
    [update_record] binds the new values followed by the WHERE values,
    returns the row count of the cursor, and commits exactly when
    [autocommit] is set. *)
Theorem update_record_success
        table columns (values : list value) where_clause where_values
        (autocommit : bool) p c stmt w1 cur w2 :
  held p = Some c ->
  length columns = length values ->
  update_statement table columns where_clause = Ok stmt ->
  pg_execute c stmt (values ++ where_values) (server p) = (w1, Ok cur) ->
  (if autocommit then pg_commit c w1 else (w1, @Ok unit tt)) = (w2, Ok tt) ->
  update_record table columns values where_clause where_values autocommit p =
  ({| server := w2;
      trace := trace p ++
        EvExecute c stmt (values ++ where_values)
        :: (if autocommit then [EvCommit c] else []);
      _instance := _instance p |},
   Ok (rowcount cur)).
Proof.
  intros Hc Hlen Hstmt Hexec Hcommit. unfold update_record.
  rewrite Hlen, Nat.eqb_refl. cbn [negb]. rewrite Hstmt.
  unfold lift. unfold bind at 1. unfold bind at 1.
  rewrite cursor_execute_held with (c := c) by exact Hc.
  rewrite Hexec. destruct autocommit.
  - unfold bind at 1. rewrite commit_held with (c := c) by exact Hc.
    cbn [server trace _instance]. rewrite Hcommit.
    unfold ret. rewrite <- app_assoc. reflexivity.
  - inversion Hcommit; subst. reflexivity.
Qed.

(** X8. [update_record] has no handler: an exception raised by the
    statement, or by the commit when [autocommit] is set, reaches the
    caller as it is, and no rollback is issued and nothing is printed. *)
Theorem update_record_failure_propagates
        table columns (values : list value) where_clause where_values
        (autocommit : bool) p c stmt w1 r :
  held p = Some c ->
  length columns = length values ->
  update_statement table columns where_clause = Ok stmt ->
  pg_execute c stmt (values ++ where_values) (server p) = (w1, r) ->
  update_record table columns values where_clause where_values autocommit p =
  match r with
  | Raise e =>
      ({| server := w1;
          trace := trace p ++ [EvExecute c stmt (values ++ where_values)];
          _instance := _instance p |}, Raise e)
  | Ok cur =>
      if autocommit then
        match pg_commit c w1 with
        | (w2, Raise e) =>
            ({| server := w2;
                trace := trace p ++ [EvExecute c stmt (values ++ where_values);
                                     EvCommit c];
                _instance := _instance p |}, Raise e)
        | (w2, Ok _) =>
            ({| server := w2;
                trace := trace p ++ [EvExecute c stmt (values ++ where_values);
                                     EvCommit c];
                _instance := _instance p |}, Ok (rowcount cur))
        end
      else
        ({| server := w1;
            trace := trace p ++ [EvExecute c stmt (values ++ where_values)];
            _instance := _instance p |}, Ok (rowcount cur))
  end.
Proof.
  intros Hc Hlen Hstmt Hexec. unfold update_record.
  rewrite Hlen, Nat.eqb_refl. cbn [negb]. rewrite Hstmt.
  unfold lift. unfold bind at 1. unfold bind at 1.
  rewrite cursor_execute_held with (c := c) by exact Hc.
  rewrite Hexec. destruct r as [cur|e]; [|reflexivity].
  destruct autocommit; [|reflexivity].
  unfold bind at 1. rewrite commit_held with (c := c) by exact Hc.
  cbn [server trace _instance].
  destruct (pg_commit c w1) as [w2 [[]|e]]; unfold ret;
    rewrite <- app_assoc; reflexivity.
Qed.

(** X9. [select_records] makes one call to the driver and neither
    commits nor rolls back. An exception of the driver reaches the
    caller; otherwise the result has one dictionary for each fetched row,
    in the order of the rows, keyed by the column names of the cursor. *)
Theorem select_records_outcome
        table columns where_clause (where_values : option (list value)) p c stmt w r :
  held p = Some c ->
  select_statement table columns where_clause = Ok stmt ->
  pg_execute c stmt match where_values with
                    | Some (v :: vs) => v :: vs
                    | _ => []
                    end (server p) = (w, r) ->
  select_records table columns where_clause where_values p =
  ({| server := w;
      trace := trace p ++ [EvExecute c stmt match where_values with
                                            | Some (v :: vs) => v :: vs
                                            | _ => []
                                            end];
      _instance := _instance p |},
   match r with
   | Raise e => Raise e
   | Ok cur =>
       match description cur with
       | None => Raise (TypeError "'NoneType' object is not iterable")
       | Some names =>
           Ok (map (fun row => PyDict.of_pairs (zip names row)) (rows cur))
       end
   end).
Proof.
  intros Hc Hstmt Hexec. unfold select_records. rewrite Hstmt.
  unfold lift. unfold bind at 1. unfold bind at 1.
  rewrite cursor_execute_held with (c := c) by exact Hc.
  rewrite Hexec. destruct r as [cur|e]; [|reflexivity].
  unfold description_names, fetchall.
  destruct (description cur); reflexivity.
Qed.

(** X10. When the first [Database()] of a process cannot connect, the
    exception reaches the caller, but [__new__] has already stored the
    new object in the class: the process is left with an instance that
    has no [_connection], and reading its [connection] raises
    [AttributeError]. *)
Theorem Database_failed_connect cfg p w e :
  _instance p = None ->
  pg_connect (DB_NAME cfg) (DB_USER cfg) (DB_PASSWORD cfg) (DB_HOST cfg) (DB_PORT cfg)
             (server p) = (w, Raise e) ->
  Database cfg p =
  ({| server := w;
      trace := trace p ++ [EvConnect (DB_NAME cfg) (DB_USER cfg) (DB_PASSWORD cfg)
                                     (DB_HOST cfg) (DB_PORT cfg)];
      _instance := Some {| _Database__initialized := false;
                           _connection := None;
                           _initialized := None |} |},
   Raise e)
  /\ snd (connection (fst (Database cfg p)))
     = Raise (AttributeError "'Database' object has no attribute '_connection'").
Proof.
  intros Hnone Hconn. destruct p as [w0 events inst].
  cbn [_instance server trace] in *. subst inst.
  assert (Hrun : Database cfg {| server := w0; trace := events; _instance := None |} =
    ({| server := w;
        trace := events ++ [EvConnect (DB_NAME cfg) (DB_USER cfg) (DB_PASSWORD cfg)
                                      (DB_HOST cfg) (DB_PORT cfg)];
        _instance := Some {| _Database__initialized := false;
                             _connection := None;
                             _initialized := None |} |},
     Raise e)).
  { unfold Database, __new__, __init__. run. rewrite Hconn. reflexivity. }
  split; [exact Hrun|]. rewrite Hrun. reflexivity.
Qed.

(** With [autocommit] off, what [insert_record] does after its statement
    is at most a rollback and the printed error. *)
Lemma insert_record_no_autocommit_events table columns values p c :
  held p = Some c ->
  exists stmt rest,
    insert_statement table (insert_fields columns values) = Ok stmt
    /\ trace (fst (insert_record table columns values false p))
       = trace p ++
           EvExecute c stmt (PyDict.values (insert_fields columns values)) :: rest
    /\ _instance (fst (insert_record table columns values false p)) = _instance p
    /\ (rest = [] \/ rest = [EvRollback c]
        \/ exists line, rest = [EvRollback c; EvPrint line]).
Proof.
  intros Hc.
  assert (Hstmt := insert_statement_shape table (insert_fields columns values)).
  match type of Hstmt with _ = Ok ?q => exists q end.
  unfold insert_record, lift, bind. rewrite Hstmt.
  match goal with
  | |- context [insert_returning ?q ?vs p] =>
      destruct (insert_returning_held p q vs Hc) as (w1 & r & Hshape & _);
      rewrite Hshape
  end.
  destruct r as [inserted|e].
  - exists []. cbn [fst trace _instance].
    split; [reflexivity|]. split; [reflexivity|]. split; [reflexivity|].
    now left.
  - unfold insert_failed, bind.
    rewrite rollback_held with (c := c) by exact Hc.
    cbn [server trace _instance].
    destruct (pg_rollback c w1) as [w2 [[]|e']].
    + eexists [_; _]. unfold print, emit, ret.
      cbn [fst trace _instance server]. rewrite <- !app_assoc.
      split; [reflexivity|]. split; [reflexivity|]. split; [reflexivity|].
      right. right. eexists. reflexivity.
    + exists [EvRollback c]. cbn [fst trace _instance]. rewrite <- !app_assoc.
      split; [reflexivity|]. split; [reflexivity|]. split; [reflexivity|].
      right. now left.
Qed.

End DatabaseMore.

(** ** More on the model mapping layer *)

Lemma str_truthy_app_l (a b : string) :
  str_truthy a = true -> str_truthy (a ++ b)%string = true.
Proof. destruct a; [discriminate | reflexivity]. Qed.

Lemma str_truthy_app_r (a b : string) :
  str_truthy b = true -> str_truthy (a ++ b)%string = true.
Proof. destruct a; [trivial | reflexivity]. Qed.

Section BaseModelMore.
Context {value world : Type} `{PV : PyValue value} `{DR : Driver value world}.
Import Database BaseModel.

Abbreviation process := (Database.process value world).
Implicit Types (p : process) (cls : BaseModel.class value)
         (self : BaseModel.instance value).

Abbreviation key_of record :=
  (fun col_id : string =>
     match PyDict.get record col_id with
     | Some v => ret v
     | None => raise (KeyError col_id)
     end : P value).

(** X11. An instance has distinct attribute names, and then
    [dict_record] is the list of its attributes without those whose name
    starts with an underscore, in the order of the attributes. *)
Theorem dict_record_filter self :
  NoDup (PyDict.keys self) ->
  dict_record self = filter (fun kv => negb (startswith (fst kv) "_")) self.
Proof. intros Hnd. unfold dict_record, PyDict.items. now apply of_pairs_if_filter. Qed.

(** The record [insert_record] keeps of the public attributes is the
    public attributes. *)
Lemma insert_fields_dict_record self :
  insert_fields (PyDict.keys (dict_record self)) (PyDict.values (dict_record self))
  = dict_record self.
Proof.
  unfold insert_fields. rewrite keys_values_zip.
  unfold dict_record, PyDict.items. apply of_pairs_if_idempotent.
Qed.

Lemma key_of_state (record : PyDict.dict value) ids p :
  fst (for_each (key_of record) ids p) = p.
Proof.
  revert p. induction ids as [|k ids IH]; intros p; [reflexivity|].
  simpl. unfold bind at 1.
  destruct (PyDict.get record k) as [v|]; [|reflexivity].
  unfold ret at 1. unfold bind at 1.
  specialize (IH p). destruct (for_each _ ids p) as [p1 [vs|e]]; simpl in *;
    now subst.
Qed.

(** X12. [dump] talks to the driver once, with an INSERT that names the
    public attributes of the instance, in their order, and binds their
    values; after it there is at most a rollback and the printed error.
    [dump] never commits. *)
Theorem dump_interaction cls self p c :
  held p = Some c ->
  exists rest,
    trace (fst (dump cls self p)) =
    trace p ++
      EvExecute c
        (sql.Composed
           [sql.SQL "INSERT INTO "; sql.Identifier [table_name cls]; sql.SQL " (";
            sql.join "," (map (fun col => sql.Identifier [col])
                              (PyDict.keys (dict_record self)));
            sql.SQL ") VALUES (";
            sql.join "," (repeat (sql.Placeholder None) (length (dict_record self)));
            sql.SQL ") RETURNING *;"])
        (PyDict.values (dict_record self)) :: rest
    /\ (rest = [] \/ rest = [EvRollback c]
        \/ exists line, rest = [EvRollback c; EvPrint line]).
Proof.
  intros Hc.
  destruct (insert_record_no_autocommit_events (table_name cls)
              (PyDict.keys (dict_record self)) (PyDict.values (dict_record self)) p Hc)
    as (stmt & rest & Hstmt & Htrace & _ & Hrest).
  rewrite insert_fields_dict_record in Hstmt, Htrace.
  rewrite insert_statement_shape in Hstmt. inversion Hstmt; subst stmt; clear Hstmt.
  exists rest. split; [|exact Hrest].
  unfold dump. unfold bind at 1.
  destruct (insert_record _ _ _ false p) as [p1 [record|e]]; cbn [fst] in *.
  - rewrite key_of_state. exact Htrace.
  - exact Htrace.
Qed.

Lemma key_of_present (record : PyDict.dict value) ids vals p :
  Forall2 (fun col_id v => PyDict.get record col_id = Some v) ids vals ->
  for_each (key_of record) ids p = (p, Ok vals).
Proof.
  intros Hall. revert p. induction Hall as [|k v ids vals Hk Hall IH]; intros p;
    [reflexivity|].
  simpl. unfold bind at 1. rewrite Hk. unfold ret at 1. unfold bind at 1.
  rewrite IH. reflexivity.
Qed.

(** X13. When the row returned by the INSERT has every key column,
    [dump] returns the values of the key columns, in the order of
    [table_id]. *)
Theorem dump_returns_key_values cls self p p' record vals :
  insert_record (table_name cls) (PyDict.keys (dict_record self))
                (PyDict.values (dict_record self)) false p = (p', Ok record) ->
  Forall2 (fun col_id v => PyDict.get record col_id = Some v) (table_id cls) vals ->
  dump cls self p = (p', Ok vals).
Proof.
  intros Hinsert Hkeys. unfold dump. unfold bind at 1. rewrite Hinsert.
  now apply key_of_present.
Qed.

(** Without [autocommit], an INSERT that returns a row is the only thing
    [insert_record] does. *)
Lemma insert_record_returns_row table columns values p c stmt w1 cur names row more :
  held p = Some c ->
  insert_statement table (insert_fields columns values) = Ok stmt ->
  pg_execute c stmt (PyDict.values (insert_fields columns values)) (server p)
    = (w1, Ok cur) ->
  description cur = Some names ->
  rows cur = row :: more ->
  insert_record table columns values false p =
  ({| server := w1;
      trace := trace p ++
        [EvExecute c stmt (PyDict.values (insert_fields columns values))];
      _instance := _instance p |},
   Ok (PyDict.of_pairs (zip names row))).
Proof.
  intros Hc Hstmt Hexec Hdesc Hrows.
  unfold insert_record. rewrite Hstmt. unfold lift. unfold bind at 1.
  unfold insert_returning. unfold bind at 1.
  rewrite cursor_execute_held with (c := c) by exact Hc.
  rewrite Hexec. unfold description_names, fetchone.
  rewrite Hdesc, Hrows. reflexivity.
Qed.

(** X14. When the INSERT returns a row that lacks a key column, [dump]
    raises [KeyError] for the first such column. The INSERT is the only
    call [dump] has made: the inserted row is neither committed nor
    rolled back. *)
Theorem dump_missing_key_column
        cls self p c stmt w1 cur names row more found col_id later vals :
  held p = Some c ->
  insert_statement (table_name cls) (dict_record self) = Ok stmt ->
  pg_execute c stmt (PyDict.values (dict_record self)) (server p) = (w1, Ok cur) ->
  description cur = Some names ->
  rows cur = row :: more ->
  table_id cls = found ++ col_id :: later ->
  Forall2 (fun col_id v => PyDict.get (PyDict.of_pairs (zip names row)) col_id = Some v)
          found vals ->
  PyDict.get (PyDict.of_pairs (zip names row)) col_id = None ->
  dump cls self p =
  ({| server := w1;
      trace := trace p ++ [EvExecute c stmt (PyDict.values (dict_record self))];
      _instance := _instance p |},
   Raise (KeyError col_id)).
Proof.
  intros Hc Hstmt Hexec Hdesc Hrows Hid Hfound Hmissing.
  rewrite <- (insert_fields_dict_record self) in Hstmt, Hexec.
  assert (Hinsert := insert_record_returns_row
                       (PyDict.keys (dict_record self))
                       (PyDict.values (dict_record self)) p
                       Hc Hstmt Hexec Hdesc Hrows).
  rewrite insert_fields_dict_record in Hinsert.
  unfold dump. unfold bind at 1. rewrite Hinsert, Hid.
  clear Hinsert Hid Hstmt Hexec.
  generalize ({| server := w1;
                 trace := trace p ++ [EvExecute c stmt (PyDict.values (dict_record self))];
                 _instance := _instance p |}) as p'.
  induction Hfound as [|k v found vals Hk Hfound IH]; intros p'.
  - simpl. unfold bind at 1. rewrite Hmissing. reflexivity.
  - simpl. unfold bind at 1. rewrite Hk. unfold ret at 1. unfold bind at 1.
    rewrite IH. reflexivity.
Qed.

(** X15. [from_database_id] with a list of the wrong length raises the
    validation error without going to the driver. *)
Theorem from_database_id_length_mismatch cls record_id p :
  length record_id <> length (table_id cls) ->
  from_database_id cls record_id p =
  (p, Raise (ValueError ("Record ID (" ++ str_list repr record_id
                         ++ ") does not match table ID ("
                         ++ str_list repr_str (table_id cls) ++ ").")%string)).
Proof.
  intros Hlen. unfold from_database_id.
  destruct (Nat.eqb_spec (length record_id) (length (table_id cls)));
    [contradiction | reflexivity].
Qed.

Lemma where_clause_truthy cls col_id rest :
  table_id cls = col_id :: rest -> str_truthy (where_clause cls) = true.
Proof.
  intros Hid. unfold where_clause, str_join. rewrite Hid. simpl.
  destruct rest as [|k rest']; simpl.
  - now apply str_truthy_app_r.
  - apply str_truthy_app_l. now apply str_truthy_app_r.
Qed.

(** X16. With a list of the right length, [from_database_id] goes to the
    driver exactly once: a SELECT of all columns of the table, restricted
    by the WHERE text over the key columns, with the given values bound.
    For a class without key columns there is no WHERE: the select ranges
    over the whole table. *)
Theorem from_database_id_single_query cls record_id p c :
  held p = Some c ->
  length record_id = length (table_id cls) ->
  trace (fst (from_database_id cls record_id p)) =
  trace p ++
    [EvExecute c
       (sql.Composed
          ([sql.SQL "SELECT "; sql.SQL "*"; sql.SQL " FROM ";
            sql.Identifier [table_name cls]]
           ++ match table_id cls with
              | [] => []
              | _ :: _ => [sql.SQL " WHERE "; sql.SQL (where_clause cls)]
              end))
       record_id].
Proof.
  intros Hc Hlen.
  assert (Hstmt : select_statement (table_name cls) (ColumnStr "*")
                                   (Some (where_clause cls)) =
                  Ok (sql.Composed
                        ([sql.SQL "SELECT "; sql.SQL "*"; sql.SQL " FROM ";
                          sql.Identifier [table_name cls]]
                         ++ match table_id cls with
                            | [] => []
                            | _ :: _ => [sql.SQL " WHERE "; sql.SQL (where_clause cls)]
                            end))).
  { rewrite select_statement_shape. destruct (table_id cls) as [|k ks] eqn:Hid.
    - unfold where_clause. rewrite Hid. reflexivity.
    - now rewrite (where_clause_truthy cls Hid). }
  assert (Htrace :
            trace (fst (select_records (table_name cls) (ColumnStr "*")
                                       (Some (where_clause cls)) (Some record_id) p))
            = trace p ++
                [EvExecute c
                   (sql.Composed
                      ([sql.SQL "SELECT "; sql.SQL "*"; sql.SQL " FROM ";
                        sql.Identifier [table_name cls]]
                       ++ match table_id cls with
                          | [] => []
                          | _ :: _ => [sql.SQL " WHERE "; sql.SQL (where_clause cls)]
                          end))
                   record_id]).
  { rewrite (select_records_trace (table_name cls) (ColumnStr "*")
               (Some (where_clause cls)) (Some record_id) p Hc Hstmt).
    destruct record_id; reflexivity. }
  unfold from_database_id. rewrite Hlen, Nat.eqb_refl. cbn [negb].
  unfold bind at 1, try_except.
  destruct (select_records _ _ _ _ p) as [p1 [records|e]]; cbn [fst] in Htrace.
  - destruct records as [|first others]; [exact Htrace|].
    unfold lift. exact Htrace.
  - exact Htrace.
Qed.

(** X17. [from_parser] hands the constructor one entry for each declared
    column and no other: the entry of a column is the attribute of that
    name of the parser object, or [None] when it has none. Attributes of
    the parser object that are not declared columns are not passed on. *)
Theorem from_parser_record none cls (parser : PyDict.dict value) p :
  exists record,
    from_parser none cls parser p = (p, __init__ cls record)
    /\ NoDup (PyDict.keys record)
    /\ (forall col, In col (PyDict.keys record) <-> In col (table_columns cls))
    /\ (forall col, In col (table_columns cls) ->
                    PyDict.get record col = Some (getattr parser col none)).
Proof.
  eexists. split; [reflexivity|].
  change (PyDict.of_pairs ?l) with (PyDict.of_pairs_if (fun _ => true) l).
  assert (Hentries : forall col v,
             In (col, v) (PyDict.of_pairs_if (fun _ => true)
                            (map (fun col => (col, getattr parser col none))
                                 (table_columns cls))) ->
             In col (table_columns cls) /\ v = getattr parser col none).
  { intros col v Hin. apply of_pairs_if_In in Hin. destruct Hin as [Hin _].
    apply in_map_iff in Hin. destruct Hin as (col' & E & Hin).
    inversion E; subst. auto. }
  assert (Hkeys : forall col, In col (table_columns cls) ->
             In col (PyDict.keys (PyDict.of_pairs_if (fun _ => true)
                            (map (fun col => (col, getattr parser col none))
                                 (table_columns cls))))).
  { intros col Hin.
    apply of_pairs_if_has_key with (v := getattr parser col none); [|reflexivity].
    apply in_map_iff. now exists col. }
  split; [apply of_pairs_if_NoDup|]. split.
  - intros col. split; [|apply Hkeys].
    intros Hin. apply keys_In in Hin. destruct Hin as [v Hin].
    now apply Hentries in Hin.
  - intros col Hin. apply get_In_NoDup; [apply of_pairs_if_NoDup|].
    destruct (keys_In _ _ (Hkeys col Hin)) as [v Hv].
    destruct (Hentries _ _ Hv) as [_ ->]. exact Hv.
Qed.

End BaseModelMore.

(** ** More on the bootstrap routine *)

Section BootstrapMore.
Context {world : Type} `{DR : Driver string world} `{FS : FileSystem world}.
Import initialize.

Abbreviation process := (initialize.process world).
Implicit Types (p : process) (c : conn).

Ltac exec :=
  cbv beta iota zeta delta
      [initialize_database connect set_autocommit close create_database
       apply_schema cursor_execute database_exists
       bind ret raise emit call print server trace negb Nat.ltb Nat.leb length].

(** X18. [apply_schema] on a path that does not exist raises
    [FileNotFoundError] before it reads anything or goes to the driver. *)
Theorem apply_schema_missing_file c schema_path p :
  path_exists schema_path (server p) = false ->
  apply_schema c schema_path p =
  (p, Raise (FileNotFoundError ("Schema " ++ schema_path ++ " does not exist")%string)).
Proof.
  intros Hfile. destruct p as [w0 events]. cbn [server] in Hfile.
  exec. rewrite Hfile. reflexivity.
Qed.

(** X19. A run that creates the database and then finds no schema file
    raises [FileNotFoundError] with the database created and no schema
    applied; a later run, which finds the database, ends without applying
    the schema, whether or not the file is there by then. *)
Theorem initialize_database_missing_schema
        dbname user password host port p
        w1 c1 w2 cur w3 created w4 w5 c2
        w6 c3 w7 cur' w8 :
  (* first run: no database, and no schema file *)
  pg_connect "postgres" user password host port (server p) = (w1, Ok c1) ->
  pg_execute c1 (sql.SQL "SELECT 1 FROM pg_database WHERE datname = %s;")
             [dbname] w1 = (w2, Ok cur) ->
  rows cur = [] ->
  pg_execute c1 (sql.SQL ("CREATE DATABASE " ++ dbname)%string) [] w2
    = (w3, Ok created) ->
  pg_close c1 w3 = (w4, Ok tt) ->
  pg_connect dbname user password host port w4 = (w5, Ok c2) ->
  path_exists "database_config/schema.sql" w5 = false ->
  (* second run: the database is there *)
  pg_connect "postgres" user password host port w5 = (w6, Ok c3) ->
  pg_execute c3 (sql.SQL "SELECT 1 FROM pg_database WHERE datname = %s;")
             [dbname] w6 = (w7, Ok cur') ->
  rows cur' <> [] ->
  pg_close c3 w7 = (w8, Ok tt) ->
  let first_run :=
    [EvConnect "postgres" user password host port;
     EvAutocommit c1 true;
     EvExecute c1 (sql.SQL "SELECT 1 FROM pg_database WHERE datname = %s;") [dbname];
     EvExecute c1 (sql.SQL ("CREATE DATABASE " ++ dbname)%string) [];
     EvPrint "Database created";
     EvClose c1;
     EvConnect dbname user password host port;
     EvAutocommit c2 true] in
  let second_run :=
    [EvConnect "postgres" user password host port;
     EvAutocommit c3 true;
     EvExecute c3 (sql.SQL "SELECT 1 FROM pg_database WHERE datname = %s;") [dbname];
     EvClose c3] in
  let p1 := {| server := w5; trace := trace p ++ first_run |} in
  let p2 := {| server := w8; trace := (trace p ++ first_run) ++ second_run |} in
  initialize_database dbname user password host port p =
    (p1, Raise (FileNotFoundError
                  "Schema database_config/schema.sql does not exist"))
  /\ initialize_database dbname user password host port p1 = (p2, Ok tt).
Proof.
  intros Hconn1 Hask1 Hnone Hcreate Hclose1 Hconn2 Hfile
         Hconn3 Hask2 Hsome Hclose3.
  destruct p as [w0 events]. cbn [server trace] in *.
  split.
  - exec. rewrite Hconn1.
    exec. rewrite Hask1.
    exec. rewrite Hnone.
    exec. rewrite Hcreate.
    exec. rewrite Hclose1.
    exec. rewrite Hconn2.
    exec. rewrite Hfile.
    exec. repeat rewrite <- app_assoc. reflexivity.
  - exec. rewrite Hconn3.
    exec. rewrite Hask2.
    exec. destruct (rows cur') as [|r rs]; [contradiction|].
    exec. rewrite Hclose3.
    exec. repeat rewrite <- app_assoc. reflexivity.
Qed.

(** X20. When CREATE DATABASE raises, the exception leaves
    [initialize_database] at once: the maintenance connection is not
    closed, no second connection is opened and no schema is applied. *)
Theorem initialize_database_create_fails
        dbname user password host port p w1 c1 w2 cur w3 e :
  pg_connect "postgres" user password host port (server p) = (w1, Ok c1) ->
  pg_execute c1 (sql.SQL "SELECT 1 FROM pg_database WHERE datname = %s;")
             [dbname] w1 = (w2, Ok cur) ->
  rows cur = [] ->
  pg_execute c1 (sql.SQL ("CREATE DATABASE " ++ dbname)%string) [] w2
    = (w3, Raise e) ->
  initialize_database dbname user password host port p =
  ({| server := w3;
      trace := trace p ++
        [EvConnect "postgres" user password host port;
         EvAutocommit c1 true;
         EvExecute c1 (sql.SQL "SELECT 1 FROM pg_database WHERE datname = %s;")
                   [dbname];
         EvExecute c1 (sql.SQL ("CREATE DATABASE " ++ dbname)%string) []] |},
   Raise e).
Proof.
  intros Hconn1 Hask1 Hnone Hcreate.
  destruct p as [w0 events]. cbn [server trace] in *.
  exec. rewrite Hconn1.
  exec. rewrite Hask1.
  exec. rewrite Hnone.
  exec. rewrite Hcreate.
  exec. repeat rewrite <- app_assoc. reflexivity.
Qed.

End BootstrapMore.

(** ** The further properties on concrete inputs *)

Section MoreRuns.
Import Database BaseModel Scripted MoreFixtures.

(** X1 with one column or one value too many. *)
Lemma insert_record_ignores_surplus_witness :
  length ["name"] = length [PStr "Alice"]
  /\ insert_record "users" (["name"] ++ ["age"]) [PStr "Alice"] false
                   (started (answering [alice_row]))
     = insert_record "users" ["name"] [PStr "Alice"] false
                     (started (answering [alice_row]))
  /\ insert_record "users" ["name"] ([PStr "Alice"] ++ [PInt 30]) false
                   (started (answering [alice_row]))
     = insert_record "users" ["name"] [PStr "Alice"] false
                     (started (answering [alice_row])).
Proof.
  split; [reflexivity|].
  apply (insert_record_ignores_surplus "users" ["name"] [PStr "Alice"]
           ["age"] [PInt 30] false (started (answering [alice_row]))).
  reflexivity.
Defined.

(** X3 with two private columns. *)
Lemma insert_record_no_public_column_witness :
  exists stmt rest,
    trace (fst (insert_record "users" ["_cache"; "_tmp"] [PNone; PInt 1] false
                              (started (answering [alice_row]))))
    = trace (started (answering [alice_row])) ++ EvExecute 0 stmt [] :: rest
    /\ sql.as_string stmt
       = ("INSERT INTO " ++ sql.quote_ident "users"
          ++ " () VALUES () RETURNING *;")%string.
Proof.
  apply (insert_record_no_public_column "users" ["_cache"; "_tmp"] [PNone; PInt 1]
           false (started (answering [alice_row])) (c := 0)).
  - reflexivity.
  - intros col [<-|[<-|[]]]; reflexivity.
Defined.

(** X4 with [autocommit] set. *)
Lemma insert_record_success_witness :
  insert_record "users" ["name"] [PStr "Alice"] true (started (answering [alice_row]))
  = ({| server := answering [];
        trace := [EvExecute 0 insert_name [PStr "Alice"]; EvCommit 0];
        _instance := _instance (started (answering [])) |},
     Ok [("id", PInt 1); ("name", PStr "Alice")]).
Proof.
  exact (insert_record_success (table := "users") ["name"] [PStr "Alice"] true
           (started (answering [alice_row]))
           (c := 0) (stmt := insert_name) (w1 := answering [])
           (names := ["id"; "name"]) (row := [PInt 1; PStr "Alice"]) (more := [])
           (w2 := answering [])
           eq_refl eq_refl eq_refl eq_refl eq_refl eq_refl).
Defined.

(** X5 on the connection that is gone. *)
Lemma insert_record_raises_only_from_rollback_witness :
  exists w events,
    pg_rollback 0 w = (lost_connection_after, Raise (DriverError "connection already closed"))
    /\ [EvExecute 0 insert_name [PStr "Alice"]; EvRollback 0]
       = [] ++ events ++ [EvRollback 0].
Proof.
  exact (insert_record_raises_only_from_rollback "users" ["name"] [PStr "Alice"] false
           (started lost_connection) (c := 0)
           (p' := {| server := lost_connection_after;
                     trace := [EvExecute 0 insert_name [PStr "Alice"]; EvRollback 0];
                     _instance := _instance (started lost_connection) |})
           (e := DriverError "connection already closed")
           eq_refl eq_refl).
Defined.

(** X7 without [autocommit]. *)
Lemma update_record_success_witness :
  update_record "users" ["name"] [PStr "Alicia"] "id = %s" [PInt 1] false
                (started (answering [three_updated]))
  = ({| server := answering [];
        trace := [EvExecute 0 update_name [PStr "Alicia"; PInt 1]];
        _instance := _instance (started (answering [])) |},
     Ok 3%Z).
Proof.
  exact (update_record_success (table := "users") (columns := ["name"])
           [PStr "Alicia"] (where_clause := "id = %s") [PInt 1] false
           (started (answering [three_updated]))
           (c := 0) (stmt := update_name) (w1 := answering [])
           (cur := {| description := None; rows := []; rowcount := 3 |})
           (w2 := answering [])
           eq_refl eq_refl eq_refl eq_refl eq_refl).
Defined.

(** X8 on a statement the server rejects. *)
Lemma update_record_failure_propagates_witness :
  update_record "users" ["name"] [PStr "Alicia"] "id = %s" [PInt 1] true
                (started (answering [Raise (DriverError "deadlock detected")]))
  = ({| server := answering [];
        trace := [EvExecute 0 update_name [PStr "Alicia"; PInt 1]];
        _instance := _instance (started (answering [])) |},
     Raise (DriverError "deadlock detected")).
Proof.
  exact (update_record_failure_propagates (table := "users") (columns := ["name"])
           [PStr "Alicia"] (where_clause := "id = %s") [PInt 1] true
           (started (answering [Raise (DriverError "deadlock detected")]))
           (c := 0) (stmt := update_name) (w1 := answering [])
           (r := Raise (DriverError "deadlock detected"))
           eq_refl eq_refl eq_refl eq_refl).
Defined.

(** ... and on a commit that fails: the exception of the commit comes
    out, after the statement ran, and nothing is rolled back. *)
Example update_record_commit_fails :
  update_record "users" ["name"] [PStr "Alicia"] "id = %s" [PInt 1] true
                (started {| opened := 1; replies := [three_updated];
                            on_commit := Raise (DriverError "could not serialize access");
                            on_rollback := Ok tt |})
  = ({| server := {| opened := 1; replies := [];
                     on_commit := Raise (DriverError "could not serialize access");
                     on_rollback := Ok tt |};
        trace := [EvExecute 0 update_name [PStr "Alicia"; PInt 1]; EvCommit 0];
        _instance := _instance (started (answering [])) |},
     Raise (DriverError "could not serialize access")).
Proof. reflexivity. Qed.

(** X9 on a table with two rows. *)
Lemma select_records_outcome_witness :
  select_records "users" (ColumnStr "*") None None (started (answering [two_rows]))
  = ({| server := answering [];
        trace := [EvExecute 0 select_all []];
        _instance := _instance (started (answering [])) |},
     Ok [[("id", PInt 1); ("name", PStr "Alice")];
         [("id", PInt 2); ("name", PStr "Bob")]]).
Proof.
  exact (select_records_outcome "users" (ColumnStr "*") None None
           (started (answering [two_rows]))
           (c := 0) (stmt := select_all) (w := answering []) (r := two_rows)
           eq_refl eq_refl eq_refl).
Defined.

(** X10 on a server that does not have the database. *)
Lemma Database_failed_connect_witness :
  Database cfg unconnected
  = ({| server := ToyServer.empty_server;
        trace := [EvConnect "cars" "scraper" "secret" "localhost" "5432"];
        _instance := Some {| _Database__initialized := false;
                             _connection := None;
                             _initialized := None |} |},
     Raise (DriverError "database cars does not exist"))
  /\ snd (connection (fst (Database cfg unconnected)))
     = Raise (AttributeError "'Database' object has no attribute '_connection'").
Proof.
  exact (Database_failed_connect cfg unconnected
           (w := ToyServer.empty_server)
           (e := DriverError "database cars does not exist")
           eq_refl eq_refl).
Defined.

(** X11 on an instance with a private attribute in the middle. *)
Lemma dict_record_filter_witness :
  dict_record alice_cached = [("name", PStr "Alice"); ("age", PInt 30)].
Proof.
  refine (dict_record_filter alice_cached _).
  repeat constructor; simpl; intuition discriminate.
Defined.

(** X12 on that instance. *)
Lemma dump_interaction_witness :
  exists rest,
    trace (fst (dump users alice_cached (started (answering [alice_row])))) =
    trace (started (answering [alice_row])) ++
      EvExecute 0
        (sql.Composed
           [sql.SQL "INSERT INTO "; sql.Identifier ["users"]; sql.SQL " (";
            sql.join "," (map (fun col => sql.Identifier [col]) ["name"; "age"]);
            sql.SQL ") VALUES (";
            sql.join "," (repeat (sql.Placeholder None) 2);
            sql.SQL ") RETURNING *;"])
        [PStr "Alice"; PInt 30] :: rest
    /\ (rest = [] \/ rest = [EvRollback 0]
        \/ exists line, rest = [EvRollback 0; EvPrint line]).
Proof.
  exact (dump_interaction users alice_cached (started (answering [alice_row]))
           (c := 0) eq_refl).
Defined.

(** X13 on a row that has the key. *)
Lemma dump_returns_key_values_witness :
  dump users alice (started (answering [alice_row]))
  = ({| server := answering [];
        trace := [EvExecute 0 insert_name [PStr "Alice"]];
        _instance := _instance (started (answering [])) |},
     Ok [PInt 1]).
Proof.
  refine (dump_returns_key_values users alice (started (answering [alice_row]))
            (record := [("id", PInt 1); ("name", PStr "Alice")])
            (vals := [PInt 1]) eq_refl _).
  repeat constructor.
Defined.

(** X14 on a row that lacks the key. *)
Lemma dump_missing_key_column_witness :
  dump users alice (started (answering [name_only_row]))
  = ({| server := answering [];
        trace := [EvExecute 0 insert_name [PStr "Alice"]];
        _instance := _instance (started (answering [])) |},
     Raise (KeyError "id")).
Proof.
  refine (dump_missing_key_column users alice (started (answering [name_only_row]))
            (c := 0) (stmt := insert_name) (w1 := answering [])
            (cur := {| description := Some ["name"]; rows := [[PStr "Alice"]];
                       rowcount := 1 |})
            (names := ["name"]) (row := [PStr "Alice"]) (more := [])
            (found := []) "id" [] (vals := [])
            eq_refl eq_refl eq_refl eq_refl eq_refl eq_refl _ eq_refl).
  constructor.
Defined.

(** X15 with two values for one key column. *)
Lemma from_database_id_length_mismatch_witness :
  length [PInt 1; PInt 2] <> length (table_id users)
  /\ from_database_id users [PInt 1; PInt 2] (started (answering [alice_row]))
     = (started (answering [alice_row]),
        Raise (ValueError "Record ID ([1, 2]) does not match table ID (['id']).")).
Proof.
  split; [discriminate|].
  refine (from_database_id_length_mismatch users [PInt 1; PInt 2]
            (started (answering [alice_row])) _).
  discriminate.
Defined.

(** X16 on a class with a key column and on one without. *)
Lemma from_database_id_single_query_witness :
  trace (fst (from_database_id users [PInt 1] (started (answering [alice_row]))))
  = [EvExecute 0 select_by_id [PInt 1]].
Proof.
  exact (from_database_id_single_query users [PInt 1]
           (started (answering [alice_row])) (c := 0) eq_refl eq_refl).
Defined.

Example from_database_id_without_key_columns :
  from_database_id log [] (started (answering [alice_row]))
  = ({| server := answering [];
        trace := [EvExecute 0
                    (sql.Composed [sql.SQL "SELECT "; sql.SQL "*"; sql.SQL " FROM ";
                                   sql.Identifier ["log"]]) []];
        _instance := _instance (started (answering [])) |},
     Ok []).
Proof. reflexivity. Qed.

End MoreRuns.

Section MoreBootstrapRuns.
Import initialize MoreFixtures.

(** X18 on the server without a schema file. *)
Lemma apply_schema_missing_file_witness :
  apply_schema 1 "database_config/schema.sql"
               {| server := no_schema_server; trace := [] |}
  = ({| server := no_schema_server; trace := [] |},
     Raise (FileNotFoundError "Schema database_config/schema.sql does not exist")).
Proof.
  exact (apply_schema_missing_file 1 "database_config/schema.sql"
           {| server := no_schema_server; trace := [] |} eq_refl).
Defined.

(** X19 on the server without a schema file. *)
Lemma initialize_database_missing_schema_witness :
  let first_run :=
    [EvConnect "postgres" "u" "pw" "localhost" "5432";
     EvAutocommit 0 true;
     EvExecute 0 (sql.SQL "SELECT 1 FROM pg_database WHERE datname = %s;") ["cars"];
     EvExecute 0 (sql.SQL "CREATE DATABASE cars") [];
     EvPrint "Database created";
     EvClose 0;
     EvConnect "cars" "u" "pw" "localhost" "5432";
     EvAutocommit 1 true] in
  let second_run :=
    [EvConnect "postgres" "u" "pw" "localhost" "5432";
     EvAutocommit 2 true;
     EvExecute 2 (sql.SQL "SELECT 1 FROM pg_database WHERE datname = %s;") ["cars"];
     EvClose 2] in
  let w1 := {| ToyServer.catalog := ["postgres"; "cars"]; ToyServer.opened := 2;
               ToyServer.files := [] |} in
  let w2 := {| ToyServer.catalog := ["postgres"; "cars"]; ToyServer.opened := 3;
               ToyServer.files := [] |} in
  initialize_database "cars" "u" "pw" "localhost" "5432"
                      {| server := no_schema_server; trace := [] |}
  = ({| server := w1; trace := [] ++ first_run |},
     Raise (FileNotFoundError "Schema database_config/schema.sql does not exist"))
  /\ initialize_database "cars" "u" "pw" "localhost" "5432"
                         {| server := w1; trace := [] ++ first_run |}
     = ({| server := w2; trace := ([] ++ first_run) ++ second_run |}, Ok tt).
Proof.
  cbv zeta.
  eapply (initialize_database_missing_schema "cars" "u" "pw" "localhost" "5432"
            {| server := no_schema_server; trace := [] |});
    try reflexivity.
  discriminate.
Defined.

(** X20 for a user who may not create databases. *)
Lemma initialize_database_create_fails_witness :
  initialize_database "cars" "u" "pw" "localhost" "5432"
    {| server := {| Refusing.inner := ToyServer.empty_server |}; trace := [] |}
  = ({| server := {| Refusing.inner :=
                       {| ToyServer.catalog := ["postgres"]; ToyServer.opened := 1;
                          ToyServer.files := ToyServer.files ToyServer.empty_server |} |};
        trace :=
          [EvConnect "postgres" "u" "pw" "localhost" "5432";
           EvAutocommit 0 true;
           EvExecute 0 (sql.SQL "SELECT 1 FROM pg_database WHERE datname = %s;")
                     ["cars"];
           EvExecute 0 (sql.SQL "CREATE DATABASE cars") []] |},
     Raise (DriverError "permission denied to create database")).
Proof.
  eapply (initialize_database_create_fails "cars" "u" "pw" "localhost" "5432"
            {| server := {| Refusing.inner := ToyServer.empty_server |};
               trace := [] |});
    reflexivity.
Defined.

End MoreBootstrapRuns.

(** ** The round trip through the database *)

Section RoundTrip.
Context {value world : Type} `{PV : PyValue value} `{DR : Driver value world}.
Import Database BaseModel.

Abbreviation process := (Database.process value world).
Implicit Types (p : process) (cls : BaseModel.class value)
         (self : BaseModel.instance value).

Abbreviation key_of record :=
  (fun col_id : string =>
     match PyDict.get record col_id with
     | Some v => ret v
     | None => raise (KeyError col_id)
     end : P value).









End RoundTrip.

Section RoundTripRuns.
Import Database BaseModel Scripted MoreFixtures.


(** On that run the public attributes do come back. *)
Example round_trip_with_key :
  exists p1 p2 rebuilt,
    dump users_storing alice_keyed (started (answering [alice_row; alice_row]))
      = (p1, Ok [PInt 1])
    /\ from_database_id users_storing [PInt 1] p1 = (p2, Ok rebuilt)
    /\ dict_record rebuilt = dict_record alice_keyed.
Proof. do 3 eexists. repeat split; reflexivity. Qed.

(** A row with a column named [self] cannot be handed to the constructor
    [BaseModel] defines. *)
Example from_database_id_column_named_self :
  snd (from_database_id users [PInt 1] (started (answering [self_row])))
  = Raise (TypeError "BaseModel.__init__() got multiple values for argument 'self'").
Proof. reflexivity. Qed.

End RoundTripRuns.
